(** * TeleTextPlus: the webhook dispatcher and the invoice endpoint of [app.py]

    A shallow embedding of the Flask handlers [webhook] and [get_invoice] and
    of the helpers they call.  Request bodies are JSON values; Python's dict,
    list and string operations on them are modelled with the exceptions they
    raise.  Handlers run in a state-and-exception monad: the state is the
    trace of outbound calls (synchronous HTTP calls and notifications handed
    to a background thread) and the process-wide [_user_cache]; an exception
    keeps the state reached when it is raised, as in Python. *)

From Stdlib Require Import String Ascii List ZArith Bool Lia.
Import ListNotations.
Open Scope string_scope.
Open Scope Z_scope.
Set Warnings "-register-all".

(* ================================================================== *)
(** ** JSON values and the Python operations the handlers use *)

(** A parsed JSON value.  Numbers are integers (the handlers only read ids
    and amounts); a str is held as its UTF-8 encoding; an object is the
    dict [json.loads] builds, as its list of members. *)
Inductive json : Type :=
| JNull
| JBool (b : bool)
| JNum (z : Z)
| JStr (s : string)
| JArr (l : list json)
| JObj (fields : list (string * json)).

(** Python exceptions raised along the handlers. *)
Inductive exn : Type :=
| KeyError (k : string)
| TypeError
| AttributeError
| JSONDecodeError
| RequestException
| BadRequest.

(** Dict lookup: with repeated keys [json.loads] keeps the last value. *)
Fixpoint obj_get (fields : list (string * json)) (k : string) : option json :=
  match fields with
  | [] => None
  | (k', v) :: rest =>
      match obj_get rest k with
      | Some w => Some w
      | None => if String.eqb k k' then Some v else None
      end
  end.

(** Truthiness ([if x:], [not x]). *)
Definition truthy (v : json) : bool :=
  match v with
  | JNull => false
  | JBool b => b
  | JNum z => negb (Z.eqb z 0)
  | JStr s => negb (String.eqb s "")
  | JArr l => negb (Nat.eqb (List.length l) 0)
  | JObj f => negb (Nat.eqb (List.length f) 0)
  end.

(** [sub in s] for strings. *)
Fixpoint is_substring (sub s : string) : bool :=
  if String.prefix sub s then true
  else match s with
       | EmptyString => false
       | String _ s' => is_substring sub s'
       end.

(* ================================================================== *)
(** ** The handler monad *)

Inductive res (A : Type) : Type :=
| Ok (a : A)
| Exc (e : exn).
Arguments Ok {A} a.
Arguments Exc {A} e.

(** The calls [app.py] makes to the platform's Bot API. *)
Record invoice : Type := mk_invoice {
  inv_title : string;
  inv_description : string;
  inv_payload : string;
  inv_provider_token : string;
  inv_currency : string;
  inv_prices : list (string * json);
  inv_is_flexible : bool
}.

Inductive call : Type :=
| AnswerPreCheckoutQuery (query_id : json) (ok : bool) (error_message : option string)
| SendInvoice (chat_id : json) (inv : invoice)
| CreateInvoiceLink (inv : invoice)
| SendMessage (chat_id : json) (text : string) (parse_mode : string).

(** An outbound call made in the handler ([Sync], its reply is awaited) or
    handed to a daemon thread by [send_async] ([Async], never awaited). *)
Inductive event : Type :=
| Sync (c : call)
| Async (c : call).

(** What [requests.post] gives back for a call: a response whose body
    parses as JSON, a response whose [.json()] raises, or an exception of
    [requests] itself (network failure, timeout). *)
Inductive reply : Type :=
| RJson (body : json)
| RBadJson
| RRaise.

(** The entries of [_user_cache]: [{'name': user_name, 'last_seen': t}]. *)
Record cache_entry : Type := mk_entry { ce_name : json; ce_last_seen : Z }.

Record state : Type := mk_state {
  trace : list event;
  user_cache : list (json * cache_entry)
}.

Definition M (A : Type) : Type := state -> res A * state.

Definition ret {A} (a : A) : M A := fun st => (Ok a, st).
Definition raise {A} (e : exn) : M A := fun st => (Exc e, st).
Definition bind {A B} (m : M A) (k : A -> M B) : M B :=
  fun st => match m st with
            | (Ok a, st') => k a st'
            | (Exc e, st') => (Exc e, st')
            end.
(** [try: m  except Exception: h] *)
Definition try_except {A} (m : M A) (h : exn -> M A) : M A :=
  fun st => match m st with
            | (Ok a, st') => (Ok a, st')
            | (Exc e, st') => h e st'
            end.

Notation "x <- m ;; k" := (bind m (fun x => k))
  (at level 61, m at next level, right associativity).
Notation "m ;; k" := (bind m (fun _ => k))
  (at level 61, right associativity).

Definition lift_res {A} (r : res A) : M A :=
  fun st => (r, st).

(** [v[k]] with a string key. *)
Definition getitem (v : json) (k : string) : M json :=
  match v with
  | JObj f => match obj_get f k with
              | Some x => ret x
              | None => raise (KeyError k)
              end
  | _ => raise TypeError
  end.

(** [v.get(k, default)] *)
Definition py_get (v : json) (k : string) (default : json) : M json :=
  match v with
  | JObj f => match obj_get f k with
              | Some x => ret x
              | None => ret default
              end
  | _ => raise AttributeError
  end.

(** [k in v] with a string [k]: key of a dict, element of a list,
    substring of a string; a TypeError for the other values. *)
Definition py_in (k : string) (v : json) : M bool :=
  match v with
  | JObj f => ret (match obj_get f k with Some _ => true | None => false end)
  | JArr l => ret (existsb (fun x => match x with
                                     | JStr s => String.eqb s k
                                     | _ => false
                                     end) l)
  | JStr s => ret (is_substring k s)
  | _ => raise TypeError
  end.

(* ================================================================== *)
(** ** Python string operations *)

(** The double-quote character. *)
Definition dq : ascii := ascii_of_nat 34.

Definition digit (n : Z) : ascii := ascii_of_nat (48 + Z.to_nat n).

(** Decimal digits of a positive number; [Pos.size_nat p] bits bound the
    number of digits. *)
Fixpoint pos_digits (fuel : nat) (p : positive) (acc : string) : string :=
  match fuel with
  | O => acc
  | S f =>
      let acc' := String (digit (Z.modulo (Zpos p) 10)) acc in
      match Z.div (Zpos p) 10 with
      | Zpos q => pos_digits f q acc'
      | _ => acc'
      end
  end.

(** [str(n)] for an int. *)
Definition str_of_Z (z : Z) : string :=
  match z with
  | Z0 => "0"
  | Zpos p => pos_digits (Pos.size_nat p) p ""
  | Zneg p => "-" ++ pos_digits (Pos.size_nat p) p ""
  end.

Definition hex_digit (n : nat) : ascii :=
  if Nat.ltb n 10 then ascii_of_nat (48 + n) else ascii_of_nat (87 + n).

(** [repr(s)] of a str: single quotes unless the string holds a single
    quote and no double quote; backslash, the quote, tab, newline and
    carriage return escaped, other ASCII control characters as [\xNN];
    bytes from 128 up are kept as they are, which is Python's [repr] where
    the non-ASCII characters are printable (it escapes the others, as
    the Unicode database classifies them). *)
Definition repr_str (s : string) : string :=
  let q := if is_substring "'" s && negb (is_substring (String dq "") s)
           then dq else "'"%char in
  let esc (c : ascii) : string :=
    let n := nat_of_ascii c in
    if Ascii.eqb c "\"%char then "\\"
    else if Ascii.eqb c q then String "\"%char (String q "")
    else if Nat.eqb n 9 then "\t"
    else if Nat.eqb n 10 then "\n"
    else if Nat.eqb n 13 then "\r"
    else if Nat.ltb n 32 || Nat.eqb n 127
    then "\x" ++ String (hex_digit (Nat.div n 16)) (String (hex_digit (Nat.modulo n 16)) "")
    else String c "" in
  let fix go (s : string) : string :=
    match s with
    | EmptyString => ""
    | String c s' => esc c ++ go s'
    end in
  String q (go s ++ String q "").

Fixpoint join (sep : string) (l : list string) : string :=
  match l with
  | [] => ""
  | [x] => x
  | x :: rest => x ++ sep ++ join sep rest
  end.

Fixpoint last_value {A} (k : string) (l : list (string * A)) (d : A) : A :=
  match l with
  | [] => d
  | (k', v) :: rest => last_value k rest (if String.eqb k k' then v else d)
  end.

Fixpoint dict_items_from {A} (seen : list string) (all l : list (string * A))
  : list (string * A) :=
  match l with
  | [] => []
  | (k, v) :: rest =>
      if existsb (String.eqb k) seen then dict_items_from seen all rest
      else (k, last_value k all v) :: dict_items_from (k :: seen) all rest
  end.

(** The items of the dict built from the members [l]: each key once, at
    the place of its first occurrence, with its last value. *)
Definition dict_items {A} (l : list (string * A)) : list (string * A) :=
  dict_items_from [] l l.

(** [repr] of a parsed JSON value. *)
Fixpoint py_repr (v : json) : string :=
  match v with
  | JNull => "None"
  | JBool true => "True"
  | JBool false => "False"
  | JNum z => str_of_Z z
  | JStr s => repr_str s
  | JArr l => "[" ++ join ", " (map py_repr l) ++ "]"
  | JObj f =>
      let members := (fix go (f : list (string * json)) : list (string * string) :=
                        match f with
                        | [] => []
                        | (k, x) :: rest => (k, py_repr x) :: go rest
                        end) f in
      "{" ++ join ", " (map (fun kv => repr_str (fst kv) ++ ": " ++ snd kv)
                          (dict_items members)) ++ "}"
  end.

Example py_repr_duplicate_keys :
  py_repr (JObj [("a", JNum 1); ("b", JNum 2); ("a", JNum 3)]) = "{'a': 3, 'b': 2}".
Proof. reflexivity. Qed.

(** [str(v)], as an f-string inserts [v]: exact for a str, an int, a bool
    and None; on a list or a dict it is [py_repr], exact where the
    non-ASCII characters of the strings inside are printable. *)
Definition py_str (v : json) : string :=
  match v with
  | JStr s => s
  | _ => py_repr v
  end.

Definition of_bytes (l : list nat) : string := string_of_list_ascii (map ascii_of_nat l).

(** The UTF-8 encodings of the characters [str.isspace()] holds of, those
    [str.strip()] removes: U+0009-U+000D, U+001C-U+0020, U+0085, U+00A0,
    U+1680, U+2000-U+200A, U+2028, U+2029, U+202F, U+205F and U+3000. *)
Definition py_space_encodings : list string :=
  map of_bytes
    ([[9]; [10]; [11]; [12]; [13]; [28]; [29]; [30]; [31]; [32];
      [194; 133]; [194; 160]; [225; 154; 128]]%nat
     ++ map (fun n => [226; 128; 128 + n]%nat) (seq 0 11)
     ++ [[226; 128; 168]; [226; 128; 169]; [226; 128; 175]; [226; 129; 159];
         [227; 128; 128]]%nat)%list.

Fixpoint drop_prefix (p s : string) : option string :=
  match p, s with
  | EmptyString, _ => Some s
  | String a p', String b s' => if Ascii.eqb a b then drop_prefix p' s' else None
  | String _ _, EmptyString => None
  end.

Fixpoint drop_any (ps : list string) (s : string) : option string :=
  match ps with
  | [] => None
  | p :: ps' => match drop_prefix p s with
                | Some s' => Some s'
                | None => drop_any ps' s
                end
  end.

(** Removing leading encodings of [ps] (each removal shortens [s], so its
    length bounds their number). *)
Fixpoint lstrip_with (ps : list string) (fuel : nat) (s : string) : string :=
  match fuel with
  | O => s
  | S f => match drop_any ps s with
           | Some s' => lstrip_with ps f s'
           | None => s
           end
  end.

Definition string_rev (s : string) : string :=
  string_of_list_ascii (rev (list_ascii_of_string s)).

Definition lstrip (s : string) : string :=
  lstrip_with py_space_encodings (String.length s) s.

Definition rstrip (s : string) : string :=
  string_rev (lstrip_with (map string_rev py_space_encodings) (String.length s)
                (string_rev s)).

(** [s.strip()] on the UTF-8 encoding of [s].  In valid UTF-8 an encoding
    found at the start, or at the end, of the bytes is a whole character,
    as no encoding begins with a continuation byte. *)
Definition strip (s : string) : string := rstrip (lstrip s).

Example strip_ideographic_space :
  strip (of_bytes [227; 128; 128]%nat) = "".
Proof. reflexivity. Qed.

Example strip_keeps_a_grave :
  strip (of_bytes [32; 195; 160; 10]%nat) = of_bytes [195; 160]%nat.
Proof. reflexivity. Qed.

(** [v.strip()]: only a str has the method. *)
Definition py_strip (v : json) : M string :=
  match v with
  | JStr s => ret (strip s)
  | _ => raise AttributeError
  end.

(** [s.replace(a, b)] for single characters. *)
Fixpoint replace_char (a b : ascii) (s : string) : string :=
  match s with
  | EmptyString => EmptyString
  | String c s' => String (if Ascii.eqb c a then b else c) (replace_char a b s')
  end.

Definition is_upper (c : ascii) : bool :=
  let n := nat_of_ascii c in Nat.leb 65 n && Nat.leb n 90.
Definition is_lower (c : ascii) : bool :=
  let n := nat_of_ascii c in Nat.leb 97 n && Nat.leb n 122.
Definition to_upper (c : ascii) : ascii :=
  if is_lower c then ascii_of_nat (nat_of_ascii c - 32) else c.
Definition to_lower (c : ascii) : ascii :=
  if is_upper c then ascii_of_nat (nat_of_ascii c + 32) else c.

(** [s.title()] on ASCII strings, where it is Python's: a letter is
    upper-cased when the character before it is not a letter, lower-cased
    otherwise.  (The handlers take [str.title] as a parameter; this is the
    instance the concrete runs below use, on ASCII products.) *)
Fixpoint title_from (prev_cased : bool) (s : string) : string :=
  match s with
  | EmptyString => EmptyString
  | String c s' =>
      let c' := if prev_cased then to_lower c else to_upper c in
      String c' (title_from (is_upper c' || is_lower c') s')
  end.

Definition title (s : string) : string := title_from false s.

Example title_premium_weekly :
  title (replace_char "_" " " "premium_weekly") = "Premium Weekly".
Proof. reflexivity. Qed.

Example str_of_Z_12345 : str_of_Z 12345 = "12345".
Proof. reflexivity. Qed.

(* ================================================================== *)
(** ** Fixed texts of the bot *)

Definition welcome_text (user_name : string) : string :=
"👋 Welcome to TeleTextPlus, " ++ user_name ++ "!

I'm a powerful text utility tool for all your needs.

<b>Available Commands:</b>
/start - Show this message
/help - View all features
/premium - Unlock premium features
/paysupport - Payment FAQ & support

<b>Premium Features (⭐):</b>
• Unlimited text conversions
• Advanced formatting tools
• AI-powered suggestions
• Priority support

Tap /premium to upgrade and get started!".

Definition help_text : string :=
"<b>📚 Features & Help</b>

<b>Available Commands:</b>
/start - Welcome message
/help - This help text
/premium - Get premium access
/paysupport - Payment help

<b>🔐 Premium Features:</b>
✓ Unlimited text conversions
✓ Advanced formatting
✓ AI suggestions
✓ Priority support
✓ Exclusive tools

<b>💰 Pricing:</b>
⭐ 99 Telegram Stars (~$1.99)
⏱ Valid for 1 week

Ready to upgrade? Use /premium!".

Definition support_text : string :=
"💳 <b>Payment Support</b>

<b>What are Telegram Stars?</b>
Telegram Stars are a secure in-app currency
1 Star ≈ $0.02 USD

<b>Payment Methods:</b>
✓ Telegram Stars (fastest & easiest)
✓ Credit/Debit Card
✓ Apple Pay
✓ Google Pay

<b>Pricing & Duration:</b>
⭐ 99 Stars = approximately $1.99
⏱ Premium access for 1 week

<b>Troubleshooting:</b>
• Check your internet connection
• Ensure your payment method is active
• Try again if payment fails
• Contact support if problems persist

<b>Refunds:</b>
Refunds are available within 48 hours of purchase.
Contact support for assistance.

Questions? Use /help".

Definition generic_text : string :=
"Thanks for your message! 👋

Use /help to see all features, or /premium to unlock premium access.".

Definition payment_error_text : string :=
"❌ Error initiating payment. Please try again.".

Definition payment_success_text : string :=
"✅ <b>Payment Successful!</b>

🎉 Welcome to TeleTextPlus Premium!

Your premium membership is now active:
⭐ 7 days of unlimited access
🔓 All features unlocked
⚡ Priority processing
📱 Use the mini app for full power

Your benefits start immediately!

Use /help to get started!".

Definition premium_description : string :=
"Get unlimited access to all features for 1 week!
✓ Unlimited conversions
✓ Advanced tools
✓ Priority support".

Definition link_description : string :=
"Unlock premium features! ✓ Unlimited ✓ Advanced ✓ Priority".

(* ================================================================== *)
(** ** Flask responses and request bodies *)

(** A Flask response: status code and JSON body. *)
Definition response : Type := (Z * json)%type.

Definition ok_response : response := (200, JObj [("ok", JBool true)]).
Definition error_response (status : Z) (msg : json) : response :=
  (status, JObj [("error", msg)]).

(** The body of a POST: JSON, or a body [request.get_json()] refuses (not
    JSON, or not sent as JSON), on which it raises [BadRequest]. *)
Inductive body : Type :=
| BJson (j : json)
| BMalformed.

Definition get_json (b : body) : M json :=
  match b with
  | BJson j => ret j
  | BMalformed => raise BadRequest
  end.

(** Appending an event to the trace. *)
Definition emit (e : event) : M unit :=
  fun st => (Ok tt, mk_state (trace st ++ [e]) (user_cache st)).

(** [response.json()] *)
Definition response_json (r : reply) : M json :=
  match r with
  | RJson j => ret j
  | _ => raise JSONDecodeError
  end.

(** [text == lit] for a JSON value and a str literal. *)
Definition text_is (text : json) (lit : string) : bool :=
  match text with
  | JStr s => String.eqb s lit
  | _ => false
  end.

(** Hashable values can be dict keys; list and dict values cannot. *)
Definition hashable (v : json) : bool :=
  match v with
  | JArr _ | JObj _ => false
  | _ => true
  end.

(** [==] between hashable keys ([True == 1], [False == 0]). *)
Definition num_value (v : json) : option Z :=
  match v with
  | JNum z => Some z
  | JBool b => Some (if b then 1 else 0)
  | _ => None
  end.

Definition key_eq (a b : json) : bool :=
  match a, b with
  | JNull, JNull => true
  | JStr s, JStr t => String.eqb s t
  | _, _ => match num_value a, num_value b with
            | Some x, Some y => Z.eqb x y
            | _, _ => false
            end
  end.

(** [d[k] = e]: an equal key keeps its slot, a new key goes last. *)
Fixpoint cache_put (k : json) (e : cache_entry) (c : list (json * cache_entry))
  : list (json * cache_entry) :=
  match c with
  | [] => [(k, e)]
  | (k', e') :: rest =>
      if key_eq k k' then (k', e) :: rest else (k', e') :: cache_put k e rest
  end.

(** Reading [_user_cache[k]]: the entry of the key equal to [k]. *)
Fixpoint cache_lookup (k : json) (c : list (json * cache_entry)) : option cache_entry :=
  match c with
  | [] => None
  | (k', e') :: rest => if key_eq k k' then Some e' else cache_lookup k rest
  end.

(** A dict holds no two equal keys. *)
Fixpoint distinct_keys (c : list (json * cache_entry)) : Prop :=
  match c with
  | [] => True
  | (k, _) :: rest => (forall k' e', In (k', e') rest -> key_eq k k' = false)
                      /\ distinct_keys rest
  end.

(* ================================================================== *)
(** ** The handlers *)

Section Handlers.

(** [json.loads] ([None] where it raises) and [urllib.parse.unquote]
    (which never raises: undecodable bytes are replaced). *)
Variable json_loads : string -> option json.
Variable unquote : string -> string.
(** [str.title()] and [str(v)] of a value [json.loads] builds: the first
    applies Unicode case mappings, the second escapes in [repr] the
    characters the Unicode database does not call printable, so both are
    parameters as well. *)
Variable str_title : string -> string.
Variable str_json : json -> string.
(** The platform's answer to each outbound call. *)
Variable gw : call -> reply.
(** [time.time()] in milliseconds; [int(time.time())] is [now_secs]. *)
Variable now_ms : Z.

Definition now_secs : Z := now_ms / 1000.

(** [requests.post(url, json=payload, timeout=...)] *)
Definition post (c : call) : M reply :=
  emit (Sync c) ;;
  match gw c with
  | RRaise => raise RequestException
  | r => ret r
  end.

(** [send_message_async(chat_id, text)]: a daemon thread is started that
    runs [send_telegram_message(chat_id, text)]; the handler goes on. *)
Definition send_message_async (chat_id : json) (text : string) : M unit :=
  emit (Async (SendMessage chat_id text "HTML")).

(** [send_telegram_message(chat_id, text, parse_mode)], the body of the
    thread [send_message_async] starts (lines 68-81): the reply of the
    platform is not looked at. *)
Definition send_telegram_message (chat_id : json) (text parse_mode : string) : M bool :=
  try_except
    (post (SendMessage chat_id text parse_mode) ;; ret true)
    (fun _ => ret false).

(** [cache_user(user_id, user_name)] *)
Definition cache_user (user_id user_name : json) : M unit :=
  if hashable user_id then
    fun st => (Ok tt, mk_state (trace st)
                        (cache_put user_id (mk_entry user_name now_ms) (user_cache st)))
  else raise TypeError.

(** [answer_pre_checkout_query(query_id, ok=True, error_message=None)] *)
Definition answer_pre_checkout_query (query_id : json) (ok : bool)
    (error_message : option string) : M bool :=
  try_except
    (let em := match error_message with
               | Some m => if negb ok && negb (String.eqb m "") then Some m else None
               | None => None
               end in
     response <- post (AnswerPreCheckoutQuery query_id ok em) ;;
     r <- response_json response ;;
     okv <- py_get r "ok" JNull ;;
     if truthy okv then ret true
     else (response_json response ;; ret false))
    (fun _ => ret false).

(** The invoice sent by [/premium] (lines 279-288, without [chat_id]). *)
Definition premium_invoice (user_id : json) : invoice :=
  mk_invoice "TeleTextPlus Premium Weekly" premium_description
    ("premium_weekly_" ++ py_str user_id ++ "_" ++ str_of_Z now_secs)
    "" "XTR" [("Premium Weekly", JNum 99)] false.

(** The [/premium] branch (lines 275-297). *)
Definition premium_command (chat_id user_id : json) : M unit :=
  try_except
    (response <- post (SendInvoice chat_id (premium_invoice user_id)) ;;
     r <- response_json response ;;
     okv <- py_get r "ok" JNull ;;
     if truthy okv then ret tt
     else (response_json response ;;
           send_message_async chat_id payment_error_text))
    (fun _ => send_message_async chat_id payment_error_text).

(** The message branch after [message = update['message']]
    (lines 219-333). *)
Definition handle_message (message : json) : M unit :=
  chat <- getitem message "chat" ;;
  chat_id <- getitem chat "id" ;;
  text <- py_get message "text" (JStr "") ;;
  user <- getitem message "from" ;;
  user_id <- getitem user "id" ;;
  user_name <- py_get user "first_name" (JStr "User") ;;
  cache_user user_id user_name ;;
  if text_is text "/start" then send_message_async chat_id (welcome_text (py_str user_name))
  else if text_is text "/help" then send_message_async chat_id help_text
  else if text_is text "/premium" then premium_command chat_id user_id
  else if text_is text "/paysupport" then send_message_async chat_id support_text
  else send_message_async chat_id generic_text.

(** The payment branch (lines 337-365). *)
Definition handle_payment (update : json) : M unit :=
  message <- getitem update "message" ;;
  chat <- getitem message "chat" ;;
  chat_id <- getitem chat "id" ;;
  from <- getitem message "from" ;;
  getitem from "id" ;;
  payment <- getitem message "successful_payment" ;;
  getitem payment "total_amount" ;;
  getitem payment "currency" ;;
  getitem payment "telegram_payment_charge_id" ;;
  send_message_async chat_id payment_success_text.

(** [webhook()] (lines 199-372). *)
Definition webhook (b : body) : M response :=
  try_except
    (update <- get_json b ;;
     pcq <- py_in "pre_checkout_query" update ;;
     if pcq then
       (query <- getitem update "pre_checkout_query" ;;
        query_id <- getitem query "id" ;;
        answer_pre_checkout_query query_id true None ;;
        ret ok_response)
     else
       (has_message <- py_in "message" update ;;
        (if has_message
         then (message <- getitem update "message" ;; handle_message message)
         else ret tt) ;;
        has_payment <- (m <- py_in "message" update ;;
                        if m then (message <- getitem update "message" ;;
                                   py_in "successful_payment" message)
                        else ret false) ;;
        (if has_payment then handle_payment update else ret tt) ;;
        ret ok_response))
    (fun _ => ret ok_response).

(** [s.split(sep)] *)
Fixpoint split_on (sep : ascii) (s : string) : list string :=
  match s with
  | EmptyString => [""]
  | String c s' =>
      match split_on sep s' with
      | [] => []
      | w :: ws => if Ascii.eqb c sep then "" :: w :: ws else String c w :: ws
      end
  end.

(** [s.split(sep, 1)] when it gives two parts. *)
Fixpoint split_first (sep : ascii) (s : string) : option (string * string) :=
  match s with
  | EmptyString => None
  | String c s' =>
      if Ascii.eqb c sep then Some ("", s')
      else match split_first sep s' with
           | Some (a, b) => Some (String c a, b)
           | None => None
           end
  end.

(** [urllib.parse.parse_qsl(qs)] with its defaults ([&] separator, blank
    values dropped, no strict parsing). *)
Definition parse_qsl (qs : string) : list (string * string) :=
  flat_map (fun name_value =>
              if String.eqb name_value "" then []
              else match split_first "=" name_value with
                   | None => []
                   | Some (n, v) =>
                       if String.eqb v "" then []
                       else [(unquote (replace_char "+" " " n),
                              unquote (replace_char "+" " " v))]
                   end)
           (split_on "&" qs).

(** [parse_qs(qs).get(name, [None])[0]]: [parse_qs] groups the values of
    [parse_qsl] by name in order, so this is the first value for [name]. *)
Definition first_value (name : string) (qs : string) : option string :=
  match find (fun nv => String.eqb (fst nv) name) (parse_qsl qs) with
  | Some (_, v) => Some v
  | None => None
  end.

(** The user id taken from [initData] (lines 155-164). *)
Definition extract_user_id (init_data : string) : M json :=
  try_except
    (match first_value "user" init_data with
     | Some user_data =>
         if negb (String.eqb user_data "") then
           (user_info <- lift_res (match json_loads (unquote user_data) with
                                   | Some j => Ok j
                                   | None => Exc JSONDecodeError
                                   end) ;;
            py_get user_info "id" (JNum 0))
         else ret (JNum 0)
     | None => ret (JNum 0)
     end)
    (fun _ => ret (JNum 0)).

(** The [createInvoiceLink] request of lines 167-179 for a str [product]. *)
Definition link_invoice (product : string) (user_id amount : json) : invoice :=
  mk_invoice ("TeleTextPlus " ++ str_title (replace_char "_" " " product))
    link_description
    (product ++ "_" ++ str_json user_id ++ "_" ++ str_of_Z now_secs)
    "" "XTR" [("Premium", amount)] false.

(** [product.replace(...)]: only a str has the method.  (The payload
    f-string before it cannot fail and has no effect.) *)
Definition as_str (v : json) : M string :=
  match v with
  | JStr s => ret s
  | _ => raise AttributeError
  end.

(** [get_invoice()] (lines 134-195). *)
Definition get_invoice (b : body) : M response :=
  try_except
    (data <- get_json b ;;
     if negb (truthy data) then ret (error_response 400 (JStr "No data"))
     else
       (init <- py_get data "initData" (JStr "") ;;
        init_data <- py_strip init ;;
        product <- py_get data "product" (JStr "premium_weekly") ;;
        amount <- py_get data "amount" (JNum 99) ;;
        if String.eqb init_data "" then ret (error_response 400 (JStr "Missing initData"))
        else
          (user_id <- extract_user_id init_data ;;
           p <- as_str product ;;
           response <- post (CreateInvoiceLink (link_invoice p user_id amount)) ;;
           result <- response_json response ;;
           okv <- py_get result "ok" JNull ;;
           if truthy okv then
             (invoice_url <- py_get result "result" JNull ;;
              ret (200, JObj [("invoice_url", invoice_url)]))
           else
             (error_msg <- py_get result "description" (JStr "Unknown error") ;;
              ret (error_response 400 error_msg)))))
    (fun _ => ret (error_response 500 (JStr "Server error"))).

End Handlers.

(* ================================================================== *)
(** ** Concrete [unquote] and [json.loads] for runs on concrete inputs

    The theorems below hold for every [json_loads] and [unquote]; these
    instances run the handlers on sample requests.  [unquote_impl] decodes
    [%XY] escapes byte-wise; [json_loads_impl] parses the JSON subset of the
    model (null, booleans, integers, strings with the short escapes, arrays,
    objects) and fails on anything else. *)

Definition hex_val (c : ascii) : option nat :=
  let n := nat_of_ascii c in
  if Nat.leb 48 n && Nat.leb n 57 then Some (Nat.sub n 48)
  else if Nat.leb 97 n && Nat.leb n 102 then Some (Nat.sub n 87)
  else if Nat.leb 65 n && Nat.leb n 70 then Some (Nat.sub n 55)
  else None.

Fixpoint unquote_impl (s : string) : string :=
  match s with
  | EmptyString => EmptyString
  | String c rest =>
      if Ascii.eqb c "%" then
        match rest with
        | String a (String b rest') =>
            match hex_val a, hex_val b with
            | Some x, Some y => String (ascii_of_nat (Nat.add (Nat.mul 16 x) y)) (unquote_impl rest')
            | _, _ => String c (unquote_impl rest)
            end
        | _ => String c (unquote_impl rest)
        end
      else String c (unquote_impl rest)
  end.

Definition is_json_ws (c : ascii) : bool :=
  let n := nat_of_ascii c in
  Nat.eqb n 32 || Nat.eqb n 9 || Nat.eqb n 10 || Nat.eqb n 13.

Fixpoint skip_ws (s : string) : string :=
  match s with
  | String c s' => if is_json_ws c then skip_ws s' else s
  | EmptyString => EmptyString
  end.

Fixpoint strip_prefix (p s : string) : option string :=
  match p, s with
  | EmptyString, _ => Some s
  | String a p', String b s' => if Ascii.eqb a b then strip_prefix p' s' else None
  | _, _ => None
  end.

Definition is_digit (c : ascii) : bool :=
  let n := nat_of_ascii c in Nat.leb 48 n && Nat.leb n 57.

(** The digits at the head of [s], accumulated onto [acc]. *)
Fixpoint parse_digits (s : string) (acc : Z) : Z * string :=
  match s with
  | String c s' =>
      if is_digit c then parse_digits s' (10 * acc + Z.of_nat (Nat.sub (nat_of_ascii c) 48))
      else (acc, s)
  | EmptyString => (acc, s)
  end.

Definition parse_nat (s : string) : option (Z * string) :=
  match s with
  | String c _ => if is_digit c then Some (parse_digits s 0) else None
  | EmptyString => None
  end.

(** The body of a string literal after its opening quote. *)
Fixpoint parse_str_body (s : string) : option (string * string) :=
  match s with
  | EmptyString => None
  | String c s' =>
      if Ascii.eqb c dq then Some ("", s')
      else if Ascii.eqb c "\" then
        match s' with
        | String e s'' =>
            let d := if Ascii.eqb e "n" then Some (ascii_of_nat 10)
                     else if Ascii.eqb e "t" then Some (ascii_of_nat 9)
                     else if Ascii.eqb e "r" then Some (ascii_of_nat 13)
                     else if Ascii.eqb e "b" then Some (ascii_of_nat 8)
                     else if Ascii.eqb e "f" then Some (ascii_of_nat 12)
                     else if Ascii.eqb e dq || Ascii.eqb e "\" || Ascii.eqb e "/"
                     then Some e else None in
            match d, parse_str_body s'' with
            | Some d, Some (w, r) => Some (String d w, r)
            | _, _ => None
            end
        | EmptyString => None
        end
      else match parse_str_body s' with
           | Some (w, r) => Some (String c w, r)
           | None => None
           end
  end.

Fixpoint parse_value (fuel : nat) (s : string) : option (json * string) :=
  match fuel with
  | O => None
  | S f =>
      match skip_ws s with
      | EmptyString => None
      | String c rest as t =>
          if Ascii.eqb c "n" then option_map (fun r => (JNull, r)) (strip_prefix "ull" rest)
          else if Ascii.eqb c "t" then option_map (fun r => (JBool true, r)) (strip_prefix "rue" rest)
          else if Ascii.eqb c "f" then option_map (fun r => (JBool false, r)) (strip_prefix "alse" rest)
          else if Ascii.eqb c dq then option_map (fun wr => (JStr (fst wr), snd wr)) (parse_str_body rest)
          else if Ascii.eqb c "-" then option_map (fun zr => (JNum (- fst zr), snd zr)) (parse_nat rest)
          else if is_digit c then option_map (fun zr => (JNum (fst zr), snd zr)) (parse_nat t)
          else if Ascii.eqb c "[" then
            match skip_ws rest with
            | String "]" r => Some (JArr [], r)
            | _ => parse_elems f rest []
            end
          else if Ascii.eqb c "{" then
            match skip_ws rest with
            | String "}" r => Some (JObj [], r)
            | _ => parse_members f rest []
            end
          else None
      end
  end
with parse_elems (fuel : nat) (s : string) (acc : list json) : option (json * string) :=
  match fuel with
  | O => None
  | S f =>
      match parse_value f s with
      | Some (v, r) =>
          match skip_ws r with
          | String "," r' => parse_elems f r' (v :: acc)
          | String "]" r' => Some (JArr (rev (v :: acc)), r')
          | _ => None
          end
      | None => None
      end
  end
with parse_members (fuel : nat) (s : string) (acc : list (string * json))
  : option (json * string) :=
  match fuel with
  | O => None
  | S f =>
      match skip_ws s with
      | String c rest =>
          if Ascii.eqb c dq then
            match parse_str_body rest with
            | Some (k, r) =>
                match skip_ws r with
                | String ":" r' =>
                    match parse_value f r' with
                    | Some (v, r'') =>
                        match skip_ws r'' with
                        | String "," r3 => parse_members f r3 ((k, v) :: acc)
                        | String "}" r3 => Some (JObj (rev ((k, v) :: acc)), r3)
                        | _ => None
                        end
                    | None => None
                    end
                | _ => None
                end
            | None => None
            end
          else None
      | EmptyString => None
      end
  end.

Definition json_loads_impl (s : string) : option json :=
  match parse_value (2 * String.length s + 2) s with
  | Some (v, r) => if String.eqb (skip_ws r) "" then Some v else None
  | None => None
  end.

Example json_loads_impl_user :
  json_loads_impl (unquote_impl "%7B%22id%22%3A12345%2C%22first_name%22%3A%22Ann%22%7D")
  = Some (JObj [("id", JNum 12345); ("first_name", JStr "Ann")]).
Proof. reflexivity. Qed.

(** A gateway that accepts every call, for sample runs. *)
Definition gw_accept (c : call) : reply :=
  RJson (JObj [("ok", JBool true); ("result", JStr "https://t.me/$invoice")]).

(** The initial process state. *)
Definition st0 : state := mk_state [] [].

(** The Bot API accepted a call: [response.json()] is a dict whose ['ok']
    is truthy (the test of lines 106, 184 and 290). *)
Definition accepted (r : reply) : bool :=
  match r with
  | RJson (JObj f) => match obj_get f "ok" with Some v => truthy v | None => false end
  | _ => false
  end.

(* ================================================================== *)
(** ** Reasoning about the monad *)

(** [returns P m]: whenever [m] returns normally, its value satisfies [P]. *)
Definition returns {A} (P : A -> Prop) (m : M A) : Prop :=
  forall st, match fst (m st) with
             | Ok a => P a
             | Exc _ => True
             end.

Lemma returns_ret {A} (P : A -> Prop) (a : A) : P a -> returns P (ret a).
Proof. intros H st. exact H. Qed.

Lemma returns_bind {A B} (P : B -> Prop) (m : M A) (k : A -> M B) :
  (forall a, returns P (k a)) -> returns P (bind m k).
Proof.
  intros Hk st. unfold bind.
  destruct (m st) as [[a | e] st']; [apply Hk | exact I].
Qed.

Lemma returns_if {A} (P : A -> Prop) (b : bool) (m1 m2 : M A) :
  returns P m1 -> returns P m2 -> returns P (if b then m1 else m2).
Proof. destruct b; auto. Qed.

Ltac returns_auto :=
  repeat first [ apply returns_ret; reflexivity
               | apply returns_bind; intros ?
               | apply returns_if ].

(** [try/except] whose handler returns [r] returns [r] when its body does. *)
Lemma try_except_returns {A} (m : M A) (r : A) st :
  returns (fun a => a = r) m ->
  fst (try_except m (fun _ => ret r) st) = Ok r.
Proof.
  intros Hm. specialize (Hm st). unfold try_except.
  destruct (m st) as [[a | e] st']; simpl in *; congruence.
Qed.

(** [answer_pre_checkout_query] returns normally and makes exactly one call,
    whatever the platform answers. *)
Lemma answer_pre_checkout_query_run gw qid ok em st :
  exists b, answer_pre_checkout_query gw qid ok em st
            = (Ok b, mk_state (trace st ++ [Sync (AnswerPreCheckoutQuery qid ok
                 (match em with
                  | Some m => if negb ok && negb (String.eqb m "") then Some m else None
                  | None => None
                  end))]) (user_cache st)).
Proof.
  unfold answer_pre_checkout_query, try_except, bind, post, emit, ret, raise,
    response_json, py_get; simpl.
  destruct (gw _) as [j | |]; simpl; eauto.
  destruct j; simpl; eauto.
  destruct (obj_get _ "ok"); simpl; [destruct (truthy _)|]; simpl; eauto.
Qed.

(** The pre-checkout path of [webhook] on an envelope whose query has an
    id. *)
Lemma webhook_pre_checkout_run gw now f q qid st :
  obj_get f "pre_checkout_query" = Some (JObj q) ->
  obj_get q "id" = Some qid ->
  webhook gw now (BJson (JObj f)) st
  = (Ok ok_response,
     mk_state (trace st ++ [Sync (AnswerPreCheckoutQuery qid true None)]) (user_cache st)).
Proof.
  intros Hq Hid.
  destruct (answer_pre_checkout_query_run gw qid true None st) as [b Hb].
  unfold webhook, try_except, bind at 1, get_json, ret at 1.
  unfold py_in at 1, bind at 1. rewrite Hq.
  unfold ret at 1, getitem at 1. rewrite Hq.
  unfold bind at 1, ret at 1, getitem at 1, bind at 1. rewrite Hid.
  unfold ret at 1, bind at 1. rewrite Hb. reflexivity.
Qed.

(* ================================================================== *)
(** ** The webhook dispatcher *)

(** C1: for an envelope carrying a pre-checkout query (an object with an
    [id]), [webhook] makes exactly one call, [answerPreCheckoutQuery] with
    [ok=True], before anything else of the envelope is handled (nothing else
    is handled: no other call, no cache update), and answers [200 {"ok": true}]
    whatever the platform replies to the approval. *)
Theorem webhook_pre_checkout_answered gw now f q qid st
  (Hq : obj_get f "pre_checkout_query" = Some (JObj q))
  (Hid : obj_get q "id" = Some qid) :
  webhook gw now (BJson (JObj f)) st
  = (Ok ok_response,
     mk_state (trace st ++ [Sync (AnswerPreCheckoutQuery qid true None)]) (user_cache st)).
Proof. apply (webhook_pre_checkout_run gw now f q qid st Hq Hid). Qed.

Lemma webhook_pre_checkout_answered_witness :
  obj_get [("update_id", JNum 1); ("pre_checkout_query", JObj [("id", JStr "q1")])]
    "pre_checkout_query" = Some (JObj [("id", JStr "q1")])
  /\ obj_get [("id", JStr "q1")] "id" = Some (JStr "q1")
  /\ webhook (fun _ => RRaise) 1700000000000
       (BJson (JObj [("update_id", JNum 1); ("pre_checkout_query", JObj [("id", JStr "q1")])])) st0
     = (Ok ok_response, mk_state [Sync (AnswerPreCheckoutQuery (JStr "q1") true None)] []).
Proof.
  split; [reflexivity | split; [reflexivity |]].
  apply (webhook_pre_checkout_answered (fun _ => RRaise) 1700000000000
           [("update_id", JNum 1); ("pre_checkout_query", JObj [("id", JStr "q1")])]
           [("id", JStr "q1")] (JStr "q1") st0); reflexivity.
Defined.

(** A sample envelope carrying both a pre-checkout query and a [/start]
    message. *)
Definition pcq_and_message_update : json :=
  JObj [("update_id", JNum 2);
        ("pre_checkout_query", JObj [("id", JStr "q1")]);
        ("message", JObj [("chat", JObj [("id", JNum 5)]);
                          ("from", JObj [("id", JNum 7); ("first_name", JStr "Ann")]);
                          ("text", JStr "/start")])].

(** C2 (counterexample): on an envelope with a pre-checkout query and a
    [/start] message, the only call is the approval: the welcome message is
    never sent and the user cache is not touched, the message branch is
    skipped. *)
Lemma webhook_pcq_suppresses_message :
  webhook gw_accept 1700000000000 (BJson pcq_and_message_update) st0
  = (Ok ok_response, mk_state [Sync (AnswerPreCheckoutQuery (JStr "q1") true None)] [])
  /\ ~ In (Async (SendMessage (JNum 5) (welcome_text "Ann") "HTML"))
         (trace (snd (webhook gw_accept 1700000000000 (BJson pcq_and_message_update) st0))).
Proof.
  split; [reflexivity |].
  simpl. intros [H | []]. discriminate H.
Qed.

(** C2 (amended): when an envelope carries a pre-checkout query (with an
    id), [webhook] answers it and returns at once: even when a message is
    present, with or without [successful_payment], neither the message branch
    nor the payment branch runs (the only call is the approval and the cache
    is unchanged). *)
Theorem webhook_pcq_skips_message_branches gw now f q qid m st
  (Hq : obj_get f "pre_checkout_query" = Some (JObj q))
  (Hid : obj_get q "id" = Some qid)
  (Hm : obj_get f "message" = Some m) :
  webhook gw now (BJson (JObj f)) st
  = (Ok ok_response,
     mk_state (trace st ++ [Sync (AnswerPreCheckoutQuery qid true None)]) (user_cache st)).
Proof. clear Hm. apply (webhook_pre_checkout_run gw now f q qid st Hq Hid). Qed.

Lemma webhook_pcq_skips_message_branches_witness :
  obj_get [("update_id", JNum 2);
           ("pre_checkout_query", JObj [("id", JStr "q1")]);
           ("message", JObj [("chat", JObj [("id", JNum 5)]);
                             ("from", JObj [("id", JNum 7); ("first_name", JStr "Ann")]);
                             ("text", JStr "/start")])] "message" <> None
  /\ webhook gw_accept 1700000000000 (BJson pcq_and_message_update) st0
     = (Ok ok_response, mk_state [Sync (AnswerPreCheckoutQuery (JStr "q1") true None)] []).
Proof.
  split; [discriminate |].
  exact (webhook_pcq_skips_message_branches gw_accept 1700000000000
           [("update_id", JNum 2);
            ("pre_checkout_query", JObj [("id", JStr "q1")]);
            ("message", JObj [("chat", JObj [("id", JNum 5)]);
                              ("from", JObj [("id", JNum 7); ("first_name", JStr "Ann")]);
                              ("text", JStr "/start")])]
           [("id", JStr "q1")] (JStr "q1")
           (JObj [("chat", JObj [("id", JNum 5)]);
                  ("from", JObj [("id", JNum 7); ("first_name", JStr "Ann")]);
                  ("text", JStr "/start")]) st0 eq_refl eq_refl eq_refl).
Defined.

(** C3: whatever the body of the POST (not JSON, JSON of any shape, or a
    payload on which some step raises) and whatever the platform answers,
    [webhook] returns normally with [200 {"ok": true}]. *)
Theorem webhook_always_acknowledges gw now b st :
  fst (webhook gw now b st) = Ok ok_response.
Proof.
  unfold webhook. apply try_except_returns. returns_auto.
Qed.

(** C7: an envelope with neither a [pre_checkout_query] nor a [message]
    field gets [200 {"ok": true}] and leaves the state as it was: no
    outbound call, no notification, no cache update. *)
Theorem webhook_unknown_envelope_no_effect gw now f st
  (Hq : obj_get f "pre_checkout_query" = None)
  (Hm : obj_get f "message" = None) :
  webhook gw now (BJson (JObj f)) st = (Ok ok_response, st).
Proof.
  unfold webhook, try_except, bind, get_json, py_in, ret.
  rewrite Hq, Hm. reflexivity.
Qed.

Lemma webhook_unknown_envelope_no_effect_witness :
  webhook gw_accept 1700000000000
    (BJson (JObj [("update_id", JNum 3); ("edited_message", JObj [])])) st0
  = (Ok ok_response, st0).
Proof.
  apply (webhook_unknown_envelope_no_effect gw_accept 1700000000000
           [("update_id", JNum 3); ("edited_message", JObj [])] st0); reflexivity.
Defined.

(* ================================================================== *)
(** ** The command interpreter *)

(** The message branch up to the command switch, on a message whose chat
    and sender have ids and whose sender id can be a dict key. *)
Lemma handle_message_prefix gw now m c cid u uid st
  (Hc : obj_get m "chat" = Some (JObj c)) (Hcid : obj_get c "id" = Some cid)
  (Hu : obj_get m "from" = Some (JObj u)) (Huid : obj_get u "id" = Some uid)
  (Hh : hashable uid = true) :
  let text := match obj_get m "text" with Some t => t | None => JStr "" end in
  let name := match obj_get u "first_name" with Some n => n | None => JStr "User" end in
  handle_message gw now (JObj m) st
  = (if text_is text "/start" then send_message_async cid (welcome_text (py_str name))
     else if text_is text "/help" then send_message_async cid help_text
     else if text_is text "/premium" then premium_command gw now cid uid
     else if text_is text "/paysupport" then send_message_async cid support_text
     else send_message_async cid generic_text)
      (mk_state (trace st) (cache_put uid (mk_entry name now) (user_cache st))).
Proof.
  intros text name.
  unfold handle_message. cbv [bind getitem py_get ret raise].
  rewrite Hc, Hcid, Hu, Huid.
  unfold cache_user. rewrite Hh.
  subst text name.
  destruct (obj_get m "text"); destruct (obj_get u "first_name"); reflexivity.
Qed.

(** A message without [text] from user 7 in chat 5. *)
Definition textless_message : json :=
  JObj [("chat", JObj [("id", JNum 5)]); ("from", JObj [("id", JNum 7)])].

(** C4 (counterexample): a message with no [text] is answered with the
    generic acknowledgment. *)
Lemma handle_message_textless_notifies :
  trace (snd (handle_message gw_accept 1700000000000 textless_message st0))
  = [Async (SendMessage (JNum 5) generic_text "HTML")].
Proof. reflexivity. Qed.

(** C4 (amended): a message whose [text] is absent or empty falls to the
    default branch: the interpreter returns normally after dispatching
    exactly one notification, the generic acknowledgment, to the message's
    chat. *)
Theorem handle_message_empty_text_generic gw now m c cid u uid st
  (Hc : obj_get m "chat" = Some (JObj c)) (Hcid : obj_get c "id" = Some cid)
  (Hu : obj_get m "from" = Some (JObj u)) (Huid : obj_get u "id" = Some uid)
  (Hh : hashable uid = true)
  (Ht : obj_get m "text" = None \/ obj_get m "text" = Some (JStr "")) :
  fst (handle_message gw now (JObj m) st) = Ok tt
  /\ trace (snd (handle_message gw now (JObj m) st))
     = (trace st ++ [Async (SendMessage cid generic_text "HTML")])%list.
Proof.
  rewrite (handle_message_prefix gw now m c cid u uid st Hc Hcid Hu Huid Hh).
  destruct Ht as [Ht | Ht]; rewrite Ht; split; reflexivity.
Qed.

Lemma handle_message_empty_text_generic_witness :
  fst (handle_message gw_accept 1700000000000 textless_message st0) = Ok tt
  /\ trace (snd (handle_message gw_accept 1700000000000 textless_message st0))
     = [Async (SendMessage (JNum 5) generic_text "HTML")].
Proof.
  apply (handle_message_empty_text_generic gw_accept 1700000000000
           [("chat", JObj [("id", JNum 5)]); ("from", JObj [("id", JNum 7)])]
           [("id", JNum 5)] (JNum 5) [("id", JNum 7)] (JNum 7) st0
           eq_refl eq_refl eq_refl eq_refl eq_refl (or_introl eq_refl)).
Defined.

(** C5: on a [/premium] message, the interpreter returns normally (no
    exception reaches [webhook]) after exactly one [sendInvoice] call to the
    message's chat, followed by exactly one failure notice to that chat when
    the platform did not accept the invoice (a [requests] exception, an
    unreadable reply, or a reply without a truthy ["ok"]) and by nothing when
    it did. *)
Theorem handle_message_premium gw now m c cid u uid st
  (Hc : obj_get m "chat" = Some (JObj c)) (Hcid : obj_get c "id" = Some cid)
  (Hu : obj_get m "from" = Some (JObj u)) (Huid : obj_get u "id" = Some uid)
  (Hh : hashable uid = true)
  (Ht : obj_get m "text" = Some (JStr "/premium")) :
  fst (handle_message gw now (JObj m) st) = Ok tt
  /\ trace (snd (handle_message gw now (JObj m) st))
     = (trace st ++ Sync (SendInvoice cid (premium_invoice now uid))
         :: (if accepted (gw (SendInvoice cid (premium_invoice now uid))) then []
             else [Async (SendMessage cid payment_error_text "HTML")]))%list.
Proof.
  rewrite (handle_message_prefix gw now m c cid u uid st Hc Hcid Hu Huid Hh).
  rewrite Ht. cbn [text_is String.eqb Ascii.eqb Bool.eqb].
  cbv beta iota delta [premium_command try_except bind post emit ret raise
    response_json py_get send_message_async accepted].
  cbn [trace user_cache fst snd].
  destruct (gw _) as [j | |]; cbn [fst snd trace];
    try (split; [reflexivity | now rewrite <- ?app_assoc]).
  destruct j as [| | | | | fields]; cbn [fst snd trace];
    try (split; [reflexivity | now rewrite <- ?app_assoc]).
  destruct (obj_get fields "ok") as [v |]; [destruct (truthy v) |]; simpl;
    split; try reflexivity; now rewrite <- ?app_assoc.
Qed.

(** A [/premium] message from user 7 in chat 5. *)
Definition premium_message : json :=
  JObj [("chat", JObj [("id", JNum 5)]); ("from", JObj [("id", JNum 7)]);
        ("text", JStr "/premium")].

Lemma handle_message_premium_witness :
  fst (handle_message (fun _ => RRaise) 1700000000000 premium_message st0) = Ok tt
  /\ trace (snd (handle_message (fun _ => RRaise) 1700000000000 premium_message st0))
     = [Sync (SendInvoice (JNum 5) (premium_invoice 1700000000000 (JNum 7)));
        Async (SendMessage (JNum 5) payment_error_text "HTML")].
Proof.
  apply (handle_message_premium (fun _ => RRaise) 1700000000000
           [("chat", JObj [("id", JNum 5)]); ("from", JObj [("id", JNum 7)]);
            ("text", JStr "/premium")]
           [("id", JNum 5)] (JNum 5) [("id", JNum 7)] (JNum 7) st0
           eq_refl eq_refl eq_refl eq_refl eq_refl eq_refl).
Defined.

(* ================================================================== *)
(** ** The invoice endpoint *)

(** The user identity in [initData] cannot be read: no [user] field, its
    decoded value is not JSON, is not a JSON object, or has no [id]. *)
Definition user_unreadable (json_loads : string -> option json)
    (unquote : string -> string) (init_data : string) : Prop :=
  first_value unquote "user" init_data = None
  \/ exists u, first_value unquote "user" init_data = Some u
     /\ (json_loads (unquote u) = None
         \/ (exists j, json_loads (unquote u) = Some j /\ forall f, j <> JObj f)
         \/ (exists f, json_loads (unquote u) = Some (JObj f) /\ obj_get f "id" = None)).

(** The user-id extraction never raises and has no effect. *)
Lemma extract_user_id_run json_loads unquote s st :
  exists uid, extract_user_id json_loads unquote s st = (Ok uid, st).
Proof.
  unfold extract_user_id, try_except, bind, lift_res, py_get, ret, raise.
  destruct (first_value unquote "user" s) as [u |]; [| eauto].
  destruct (negb (String.eqb u "")); [| eauto].
  destruct (json_loads (unquote u)) as [j |]; [| eauto].
  destruct j; eauto.
  destruct (obj_get _ "id"); eauto.
Qed.

Lemma extract_user_id_anonymous json_loads unquote s st :
  user_unreadable json_loads unquote s ->
  extract_user_id json_loads unquote s st = (Ok (JNum 0), st).
Proof.
  unfold extract_user_id, try_except, bind, lift_res, py_get, ret, raise.
  intros [H | [u [H [Hj | [[j [Hj Hnot]] | [f [Hj Hid]]]]]]]; rewrite H; [reflexivity | ..];
    destruct (negb (String.eqb u "")); try reflexivity; rewrite Hj; try reflexivity.
  - destruct j; try reflexivity. exfalso. eapply Hnot. reflexivity.
  - rewrite Hid. reflexivity.
Qed.

Lemma truthy_nonempty_obj f k v : obj_get f k = Some v -> truthy (JObj f) = true.
Proof. destruct f; simpl; [discriminate | reflexivity]. Qed.

(** On a body with a non-blank [initData] and a str (or no) [product],
    [get_invoice] makes exactly one call, [createInvoiceLink] with the
    invoice built from the product, the extracted user id and the amount
    (or their defaults), whatever the platform answers. *)
Lemma get_invoice_link_run json_loads unquote str_title str_json gw now f s p uid st
  (Hinit : obj_get f "initData" = Some (JStr s))
  (Hs : strip s <> "")
  (Hp : obj_get f "product" = Some (JStr p)
        \/ (obj_get f "product" = None /\ p = "premium_weekly"))
  (Huid : extract_user_id json_loads unquote (strip s) st = (Ok uid, st)) :
  let amount := match obj_get f "amount" with Some a => a | None => JNum 99 end in
  snd (get_invoice json_loads unquote str_title str_json gw now (BJson (JObj f)) st)
  = mk_state (trace st ++ [Sync (CreateInvoiceLink (link_invoice str_title str_json now p uid amount))])
             (user_cache st).
Proof.
  intros amount.
  unfold get_invoice.
  cbv beta iota delta [try_except bind get_json ret raise py_get py_strip as_str
    post emit response_json error_response].
  rewrite (truthy_nonempty_obj f "initData" (JStr s) Hinit), Hinit.
  cbn [negb].
  destruct (String.eqb (strip s) "") eqn:Es.
  { apply String.eqb_eq in Es. contradiction. }
  destruct Hp as [Hp | [Hp ->]]; rewrite Hp; subst amount;
    destruct (obj_get f "amount"); rewrite Huid;
    (destruct (gw _) as [body | |]; simpl; [| reflexivity | reflexivity]);
    destruct body as [| | | | | fields]; simpl; try reflexivity;
    repeat (first [ match goal with |- context [obj_get fields ?k] =>
                                      destruct (obj_get fields k) end
                  | match goal with |- context [truthy ?v] => destruct (truthy v) end ];
            simpl);
    reflexivity.
Qed.

(** C8: a body without [initData], or with an [initData] that is empty
    after [strip()], gets a 400 error and leaves the state as it was: no
    call to the platform. *)
Theorem get_invoice_missing_init_data json_loads unquote str_title str_json gw now f st
  (Hinit : obj_get f "initData" = None
           \/ exists s, obj_get f "initData" = Some (JStr s) /\ strip s = "") :
  exists msg, get_invoice json_loads unquote str_title str_json gw now (BJson (JObj f)) st
              = (Ok (error_response 400 (JStr msg)), st).
Proof.
  destruct f as [| kv rest].
  - exists "No data". reflexivity.
  - unfold get_invoice.
    cbv beta iota delta [try_except bind get_json ret raise py_get py_strip truthy].
    cbn [negb length Nat.eqb].
    exists "Missing initData".
    destruct Hinit as [H | [s [H Hs]]]; rewrite H; cbn [py_strip];
      [| rewrite Hs];
      destruct (obj_get (kv :: rest) "product");
      destruct (obj_get (kv :: rest) "amount"); reflexivity.
Qed.

(** An [initData] of one ideographic space (U+3000) and a newline. *)
Definition blank_init_data : string := of_bytes [227; 128; 128; 10]%nat.

Lemma get_invoice_missing_init_data_witness :
  strip blank_init_data = ""
  /\ exists msg, get_invoice json_loads_impl unquote_impl title py_str gw_accept 1700000000000
       (BJson (JObj [("initData", JStr blank_init_data); ("product", JStr "premium_weekly")])) st0
     = (Ok (error_response 400 (JStr msg)), st0).
Proof.
  split; [reflexivity |].
  exact (get_invoice_missing_init_data json_loads_impl unquote_impl title py_str gw_accept
           1700000000000
           [("initData", JStr blank_init_data); ("product", JStr "premium_weekly")] st0
           (or_intror (ex_intro _ blank_init_data (conj eq_refl eq_refl)))).
Defined.

(** C9: when the user identity in a non-blank [initData] cannot be read
    (no [user] field, undecodable JSON, not an object, no [id]), the request
    goes on with the anonymous user id 0: its only call is the
    [createInvoiceLink] request for user 0 (for a str or absent
    [product]). *)
Theorem get_invoice_anonymous_user json_loads unquote str_title str_json gw now f s p st
  (Hinit : obj_get f "initData" = Some (JStr s))
  (Hs : strip s <> "")
  (Hp : obj_get f "product" = Some (JStr p)
        \/ (obj_get f "product" = None /\ p = "premium_weekly"))
  (Hu : user_unreadable json_loads unquote (strip s)) :
  snd (get_invoice json_loads unquote str_title str_json gw now (BJson (JObj f)) st)
  = mk_state (trace st ++ [Sync (CreateInvoiceLink (link_invoice str_title str_json now p (JNum 0)
                 (match obj_get f "amount" with Some a => a | None => JNum 99 end)))])
             (user_cache st).
Proof.
  exact (get_invoice_link_run json_loads unquote str_title str_json gw now f s p (JNum 0) st Hinit Hs Hp
           (extract_user_id_anonymous json_loads unquote (strip s) st Hu)).
Qed.

(** A body whose [initData] carries a user field that is not JSON. *)
Definition broken_user_body : json :=
  JObj [("initData", JStr "query_id=AAH&user=%7B%22id%22%3A12345");
        ("product", JStr "premium_weekly"); ("amount", JNum 99)].

Lemma get_invoice_anonymous_user_witness :
  user_unreadable json_loads_impl unquote_impl
    (strip "query_id=AAH&user=%7B%22id%22%3A12345")
  /\ snd (get_invoice json_loads_impl unquote_impl title py_str gw_accept 1700000000000
            (BJson broken_user_body) st0)
     = mk_state [Sync (CreateInvoiceLink (link_invoice title py_str 1700000000000 "premium_weekly"
                                            (JNum 0) (JNum 99)))] [].
Proof.
  assert (Hu : user_unreadable json_loads_impl unquote_impl
                 (strip "query_id=AAH&user=%7B%22id%22%3A12345")).
  { right. exists ("{" ++ String dq "id" ++ String dq ":12345"). split; [reflexivity |].
    left. reflexivity. }
  split; [exact Hu |].
  exact (get_invoice_anonymous_user json_loads_impl unquote_impl title py_str gw_accept 1700000000000
           [("initData", JStr "query_id=AAH&user=%7B%22id%22%3A12345");
            ("product", JStr "premium_weekly"); ("amount", JNum 99)]
           "query_id=AAH&user=%7B%22id%22%3A12345" "premium_weekly" st0
           eq_refl ltac:(discriminate) (or_introl eq_refl) Hu).
Defined.

(** C10: with a non-blank [initData], a body that leaves out [product] or
    [amount] is not rejected for it: the [createInvoiceLink] request is made,
    with [product] "premium_weekly" and [amount] 99 in place of the missing
    fields (and the given ones otherwise). *)
Theorem get_invoice_defaults json_loads unquote str_title str_json gw now f s st
  (Hinit : obj_get f "initData" = Some (JStr s))
  (Hs : strip s <> "")
  (Hp : obj_get f "product" = None \/ exists p, obj_get f "product" = Some (JStr p)) :
  let product := match obj_get f "product" with
                 | Some (JStr p) => p
                 | _ => "premium_weekly"
                 end in
  let amount := match obj_get f "amount" with Some a => a | None => JNum 99 end in
  exists uid,
    snd (get_invoice json_loads unquote str_title str_json gw now (BJson (JObj f)) st)
    = mk_state (trace st ++ [Sync (CreateInvoiceLink (link_invoice str_title str_json now product uid amount))])
               (user_cache st).
Proof.
  intros product amount.
  destruct (extract_user_id_run json_loads unquote (strip s) st) as [uid Huid].
  exists uid.
  apply (get_invoice_link_run json_loads unquote str_title str_json gw now f s product uid st Hinit Hs); [| exact Huid].
  subst product. destruct Hp as [Hp | [p Hp]]; rewrite Hp; [right | left]; auto.
Qed.

(** A body with only [initData], for user 12345. *)
Definition init_data_only_body : json :=
  JObj [("initData", JStr "query_id=AAH&user=%7B%22id%22%3A12345%7D")].

Lemma get_invoice_defaults_witness :
  obj_get [("initData", JStr "query_id=AAH&user=%7B%22id%22%3A12345%7D")] "product" = None
  /\ obj_get [("initData", JStr "query_id=AAH&user=%7B%22id%22%3A12345%7D")] "amount" = None
  /\ exists uid,
       snd (get_invoice json_loads_impl unquote_impl title py_str gw_accept 1700000000000
              (BJson init_data_only_body) st0)
       = mk_state [Sync (CreateInvoiceLink
                    (link_invoice title py_str 1700000000000 "premium_weekly" uid (JNum 99)))] [].
Proof.
  split; [reflexivity | split; [reflexivity |]].
  exact (get_invoice_defaults json_loads_impl unquote_impl title py_str gw_accept 1700000000000
           [("initData", JStr "query_id=AAH&user=%7B%22id%22%3A12345%7D")]
           "query_id=AAH&user=%7B%22id%22%3A12345%7D" st0
           eq_refl ltac:(discriminate) (or_introl eq_refl)).
Defined.

(** The request of that body, evaluated: default title, payload and
    price. *)
Example get_invoice_defaults_sample :
  snd (get_invoice json_loads_impl unquote_impl title py_str gw_accept 1700000000000
         (BJson init_data_only_body) st0)
  = mk_state [Sync (CreateInvoiceLink
                (mk_invoice "TeleTextPlus Premium Weekly" link_description
                   "premium_weekly_12345_1700000000" "" "XTR"
                   [("Premium", JNum 99)] false))] [].
Proof. vm_compute. reflexivity. Qed.

(** C6: two [get_invoice] requests for user 12345 and product
    "premium_weekly", 0.5 s apart within one second, send the same
    [createInvoiceLink] request: the payload strings coincide. *)
Theorem get_invoice_same_second_same_payload :
  trace (snd (get_invoice json_loads_impl unquote_impl title py_str gw_accept 1700000000200
                (BJson init_data_only_body) st0))
  = trace (snd (get_invoice json_loads_impl unquote_impl title py_str gw_accept 1700000000700
                  (BJson init_data_only_body) st0))
  /\ inv_payload (link_invoice title py_str 1700000000200 "premium_weekly" (JNum 12345) (JNum 99))
     = "premium_weekly_12345_1700000000"
  /\ inv_payload (link_invoice title py_str 1700000000700 "premium_weekly" (JNum 12345) (JNum 99))
     = "premium_weekly_12345_1700000000".
Proof. vm_compute. repeat split. Qed.

(* ================================================================== *)
(** ** Further properties of [app.py] *)

(** *** The user cache as a dict *)

Lemma key_eq_sym a b : key_eq a b = key_eq b a.
Proof.
  destruct a, b; simpl; try reflexivity;
    try apply String.eqb_sym; try apply Z.eqb_sym.
Qed.

Lemma key_eq_refl k : hashable k = true -> key_eq k k = true.
Proof.
  destruct k; simpl; intros H; try discriminate; try reflexivity.
  - apply Z.eqb_refl.
  - apply Z.eqb_refl.
  - apply String.eqb_refl.
Qed.

Lemma key_eq_trans a b c : key_eq a b = true -> key_eq b c = true -> key_eq a c = true.
Proof.
  destruct a, b, c; simpl; try discriminate; auto;
    rewrite ?Z.eqb_eq, ?String.eqb_eq; intros; congruence.
Qed.

Lemma in_cache_put k e c x y :
  In (x, y) (cache_put k e c) -> x = k \/ exists y', In (x, y') c.
Proof.
  induction c as [| [k' e'] rest IH]; simpl.
  - intros [H | []]. inversion H; auto.
  - destruct (key_eq k k'); simpl.
    + intros [H | H]; [inversion H; subst; eauto | eauto].
    + intros [H | H]; [inversion H; subst; eauto |].
      destruct (IH H) as [-> | [y' Hy]]; eauto.
Qed.

Lemma cache_put_distinct k e c :
  distinct_keys c -> distinct_keys (cache_put k e c).
Proof.
  induction c as [| [k' e'] rest IH]; simpl.
  - intros _. split; [intros ? ? [] | exact I].
  - intros [Hk Hrest]. destruct (key_eq k k') eqn:E; simpl.
    + split; assumption.
    + split; [| apply IH; assumption].
      intros x y Hin. destruct (in_cache_put _ _ _ _ _ Hin) as [-> | [y' Hy]].
      * rewrite key_eq_sym. exact E.
      * eapply Hk; eassumption.
Qed.

(** X1: [cache_user(user_id, name)] for a hashable id makes
    [_user_cache[user_id]] the entry [{name, now}], leaves the entry of
    every other user as it was, and keeps one entry per key (with [1] and
    [True], or [0] and [False], the same key). *)
Theorem cache_user_put_lookup now uid name st k
  (Hh : hashable uid = true) (Hd : distinct_keys (user_cache st)) :
  let st' := snd (cache_user now uid name st) in
  fst (cache_user now uid name st) = Ok tt
  /\ cache_lookup uid (user_cache st') = Some (mk_entry name now)
  /\ (key_eq k uid = false -> cache_lookup k (user_cache st') = cache_lookup k (user_cache st))
  /\ distinct_keys (user_cache st').
Proof.
  intros st'. subst st'. unfold cache_user. rewrite Hh. simpl.
  split; [reflexivity |].
  split; [| split; [| apply cache_put_distinct; exact Hd]].
  - clear Hd. induction (user_cache st) as [| [k' e'] rest IH]; simpl.
    + rewrite key_eq_refl by exact Hh. reflexivity.
    + destruct (key_eq uid k') eqn:E; simpl; rewrite E; [reflexivity | exact IH].
  - intros Hk. clear Hd. induction (user_cache st) as [| [k' e'] rest IH]; simpl.
    + rewrite Hk. reflexivity.
    + destruct (key_eq uid k') eqn:E; simpl.
      * destruct (key_eq k k') eqn:E2; [| reflexivity].
        exfalso. rewrite key_eq_sym in E.
        pose proof (key_eq_trans _ _ _ E2 E). congruence.
      * destruct (key_eq k k'); [reflexivity | exact IH].
Qed.

Lemma cache_user_put_lookup_witness :
  let st := mk_state [] [(JBool true, mk_entry (JStr "Bob") 5)] in
  hashable (JNum 1) = true /\ distinct_keys (user_cache st)
  /\ (let st' := snd (cache_user 9 (JNum 1) (JStr "Ann") st) in
      fst (cache_user 9 (JNum 1) (JStr "Ann") st) = Ok tt
      /\ cache_lookup (JNum 1) (user_cache st') = Some (mk_entry (JStr "Ann") 9)
      /\ (key_eq (JStr "x") (JNum 1) = false ->
          cache_lookup (JStr "x") (user_cache st') = cache_lookup (JStr "x") (user_cache st))
      /\ distinct_keys (user_cache st')).
Proof.
  intros st. split; [reflexivity | split; [simpl; split; [intros ? ? [] | exact I] |]].
  exact (cache_user_put_lookup 9 (JNum 1) (JStr "Ann") st (JStr "x") eq_refl
           (conj (fun _ _ (H : In _ []) => match H with end) I)).
Defined.

(** *** Effects of whole handlers *)

(** [frame P Q m]: [m] keeps the cache property [P] and only appends
    events satisfying [Q] to the trace. *)
Definition frame {A} (P : list (json * cache_entry) -> Prop) (Q : event -> Prop) (m : M A)
  : Prop :=
  forall st, P (user_cache st) ->
    P (user_cache (snd (m st)))
    /\ exists new, trace (snd (m st)) = (trace st ++ new)%list /\ Forall Q new.

(** Operations with no effect. *)
Definition pure_op {A} (m : M A) : Prop := forall st, snd (m st) = st.

Section Frame.
Variable P : list (json * cache_entry) -> Prop.
Variable Q : event -> Prop.

Lemma frame_pure {A} (m : M A) : pure_op m -> frame P Q m.
Proof.
  intros Hm st HP. specialize (Hm st). destruct (m st) as [r st']. simpl in *. subst st'.
  split; [exact HP |].
  exists []. rewrite app_nil_r. split; [reflexivity | constructor].
Qed.

Lemma frame_ret {A} (a : A) : frame P Q (ret a).
Proof. apply frame_pure. intros st. reflexivity. Qed.

Lemma frame_bind {A B} (m : M A) (k : A -> M B) :
  frame P Q m -> (forall a, frame P Q (k a)) -> frame P Q (bind m k).
Proof.
  intros Hm Hk st HP. unfold bind.
  destruct (Hm st HP) as [HP1 [n1 [Ht1 HQ1]]].
  destruct (m st) as [[a | e] st1]; simpl in *.
  - destruct (Hk a st1 HP1) as [HP2 [n2 [Ht2 HQ2]]].
    split; [exact HP2 |]. exists (n1 ++ n2)%list.
    rewrite Ht2, Ht1, app_assoc. split; [reflexivity | apply Forall_app; auto].
  - split; [exact HP1 |]. exists n1. auto.
Qed.

Lemma frame_try {A} (m : M A) (h : exn -> M A) :
  frame P Q m -> (forall e, frame P Q (h e)) -> frame P Q (try_except m h).
Proof.
  intros Hm Hh st HP. unfold try_except.
  destruct (Hm st HP) as [HP1 [n1 [Ht1 HQ1]]].
  destruct (m st) as [[a | e] st1]; simpl in *.
  - split; [exact HP1 |]. exists n1. auto.
  - destruct (Hh e st1 HP1) as [HP2 [n2 [Ht2 HQ2]]].
    split; [exact HP2 |]. exists (n1 ++ n2)%list.
    rewrite Ht2, Ht1, app_assoc. split; [reflexivity | apply Forall_app; auto].
Qed.

Lemma frame_emit e : Q e -> frame P Q (emit e).
Proof.
  intros He st HP. simpl. split; [exact HP |].
  exists [e]. split; [reflexivity | constructor; [exact He | constructor]].
Qed.

Lemma frame_post gw c : Q (Sync c) -> frame P Q (post gw c).
Proof.
  intros Hc. unfold post. apply frame_bind; [apply frame_emit; exact Hc |].
  intros _. destruct (gw c); apply frame_pure; intros st; reflexivity.
Qed.

Lemma frame_cache_user now uid name :
  (forall k e c, P c -> P (cache_put k e c)) -> frame P Q (cache_user now uid name).
Proof.
  intros HP. unfold cache_user. destruct (hashable uid).
  - intros st Hst. simpl. split; [apply HP; exact Hst |].
    exists []. rewrite app_nil_r. split; [reflexivity | constructor].
  - apply frame_pure. intros st. reflexivity.
Qed.

End Frame.

Lemma getitem_pure v k : pure_op (getitem v k).
Proof. intros st. destruct v; try reflexivity. simpl. destruct (obj_get _ k); reflexivity. Qed.

Lemma py_get_pure v k d : pure_op (py_get v k d).
Proof. intros st. destruct v; try reflexivity. simpl. destruct (obj_get _ k); reflexivity. Qed.

Lemma py_in_pure k v : pure_op (py_in k v).
Proof. intros st. destruct v; reflexivity. Qed.

Lemma get_json_pure b : pure_op (get_json b).
Proof. intros st. destruct b; reflexivity. Qed.

Lemma response_json_pure r : pure_op (response_json r).
Proof. intros st. destruct r; reflexivity. Qed.

Lemma py_strip_pure v : pure_op (py_strip v).
Proof. intros st. destruct v; reflexivity. Qed.

Lemma as_str_pure v : pure_op (as_str v).
Proof. intros st. destruct v; reflexivity. Qed.

Lemma lift_res_pure {A} (r : res A) : pure_op (lift_res r).
Proof. intros st. reflexivity. Qed.

Lemma raise_pure {A} e : pure_op (@raise A e).
Proof. intros st. reflexivity. Qed.

Ltac frame_auto :=
  repeat first
    [ apply frame_ret
    | apply frame_bind; [| intros ?]
    | apply frame_try; [| intros ?]
    | apply frame_pure;
      first [ apply getitem_pure | apply py_get_pure | apply py_in_pure
            | apply get_json_pure | apply response_json_pure | apply py_strip_pure
            | apply as_str_pure | apply lift_res_pure | apply raise_pure ]
    | match goal with
      | |- frame _ _ (if ?b then _ else _) => destruct b
      | |- frame _ _ (match ?x with _ => _ end) => destruct x
      end ].

Ltac frame_full :=
  repeat first
    [ apply frame_ret
    | apply frame_post; solve [simpl; eauto]
    | apply frame_emit; solve [simpl; eauto]
    | apply frame_cache_user; solve [intros; apply cache_put_distinct; assumption]
    | apply frame_bind; [| intros ?]
    | apply frame_try; [| intros ?]
    | apply frame_pure;
      first [ apply getitem_pure | apply py_get_pure | apply py_in_pure
            | apply get_json_pure | apply response_json_pure | apply py_strip_pure
            | apply as_str_pure | apply lift_res_pure | apply raise_pure ]
    | match goal with
      | |- frame _ _ (if ?b then _ else _) => destruct b
      | |- frame _ _ (match ?x with _ => _ end) => destruct x
      end ].

(** The calls [webhook] may make: approving a pre-checkout query (never a
    rejection), sending the [/premium] invoice, and HTML notifications
    handed to a background thread. *)
Definition webhook_event (now : Z) (e : event) : Prop :=
  match e with
  | Sync (AnswerPreCheckoutQuery _ ok em) => ok = true /\ em = None
  | Sync (SendInvoice _ inv) => exists uid, inv = premium_invoice now uid
  | Async (SendMessage _ _ pm) => pm = "HTML"
  | _ => False
  end.

(** X2: whatever the body and the platform's replies, [webhook] only
    appends to the trace (calls already made are never undone), and only
    calls of three kinds: [answerPreCheckoutQuery] with [ok=True] and no
    error message, [sendInvoice] of the weekly premium invoice, and HTML
    [sendMessage] notifications on a background thread; it never calls
    [createInvoiceLink] and never sends a message synchronously.  It keeps
    [_user_cache] free of duplicate keys. *)
Theorem webhook_effects gw now b st :
  distinct_keys (user_cache st) ->
  distinct_keys (user_cache (snd (webhook gw now b st)))
  /\ exists new, trace (snd (webhook gw now b st)) = (trace st ++ new)%list
                 /\ Forall (webhook_event now) new.
Proof.
  revert st.
  change (frame distinct_keys (webhook_event now) (webhook gw now b)).
  unfold webhook, handle_message, handle_payment, premium_command,
    answer_pre_checkout_query, send_message_async.
  frame_full.
Qed.

Lemma webhook_effects_witness :
  distinct_keys (user_cache st0)
  /\ distinct_keys (user_cache (snd (webhook (fun _ => RRaise) 1700000000000
                                      (BJson premium_message) st0)))
  /\ exists new, trace (snd (webhook (fun _ => RRaise) 1700000000000
                                   (BJson premium_message) st0)) = (trace st0 ++ new)%list
                 /\ Forall (webhook_event 1700000000000) new.
Proof.
  split; [exact I |].
  exact (webhook_effects (fun _ => RRaise) 1700000000000 (BJson premium_message) st0 I).
Defined.

(** The call [get_invoice] may make: a [createInvoiceLink] request built
    by lines 167-179. *)
Definition link_event (str_title : string -> string) (str_json : json -> string) (now : Z)
    (e : event) : Prop :=
  exists p uid amount, e = Sync (CreateInvoiceLink (link_invoice str_title str_json now p uid amount)).

(** X3: whatever the body and the platform's reply, [get_invoice] leaves
    [_user_cache] as it was and only appends [createInvoiceLink] requests
    (built from a product string, a user id and an amount) to the trace: no
    notification, no invoice message, no pre-checkout answer. *)
Theorem get_invoice_effects json_loads unquote str_title str_json gw now b st :
  user_cache (snd (get_invoice json_loads unquote str_title str_json gw now b st)) = user_cache st
  /\ exists new, trace (snd (get_invoice json_loads unquote str_title str_json gw now b st))
                 = (trace st ++ new)%list
                 /\ Forall (link_event str_title str_json now) new.
Proof.
  assert (H : frame (fun c => c = user_cache st) (link_event str_title str_json now)
                (get_invoice json_loads unquote str_title str_json gw now b)).
  { unfold get_invoice, extract_user_id. frame_full.
    all: apply frame_emit; unfold link_event; eauto. }
  exact (H st eq_refl).
Qed.

(** X4: [send_telegram_message] makes exactly one call, with the given
    parse mode, and never reads the platform's answer: it returns [True]
    whenever [requests.post] itself does not raise (also for an unreadable
    body or a reply with ["ok": false]), [False] otherwise. *)
Theorem send_telegram_message_result gw chat text pm st :
  send_telegram_message gw chat text pm st
  = (Ok (match gw (SendMessage chat text pm) with RRaise => false | _ => true end),
     mk_state (trace st ++ [Sync (SendMessage chat text pm)]) (user_cache st)).
Proof.
  unfold send_telegram_message, try_except, bind, post, emit, ret, raise.
  destruct (gw _); reflexivity.
Qed.

(** X5: [answer_pre_checkout_query] never raises, makes exactly one call and
    returns whether the platform accepted it; the call carries an error
    message exactly when [ok] is false and a non-empty message was given. *)
Theorem answer_pre_checkout_query_result gw qid ok em st :
  exists em',
    answer_pre_checkout_query gw qid ok em st
    = (Ok (accepted (gw (AnswerPreCheckoutQuery qid ok em'))),
       mk_state (trace st ++ [Sync (AnswerPreCheckoutQuery qid ok em')]) (user_cache st))
    /\ forall m, em' = Some m <-> (ok = false /\ em = Some m /\ m <> "").
Proof.
  exists (match em with
          | Some m => if negb ok && negb (String.eqb m "") then Some m else None
          | None => None
          end).
  split.
  - unfold answer_pre_checkout_query.
    cbv beta zeta iota delta [try_except bind post emit ret raise response_json py_get accepted].
    destruct (gw _) as [j | |]; try reflexivity.
    destruct j as [| | | | | fields]; try reflexivity.
    destruct (obj_get fields "ok"); [destruct (truthy _) |]; reflexivity.
  - intros m. destruct em as [m' |].
    + destruct ok; cbn [negb andb].
      * split; [discriminate | intros [H _]; discriminate].
      * destruct (String.eqb m' "") eqn:E; cbn [negb].
        -- apply String.eqb_eq in E. subst m'.
           split; [discriminate |].
           intros [_ [H Hne]]. injection H as <-. contradiction.
        -- apply String.eqb_neq in E.
           split.
           ++ intros H. injection H as <-. auto.
           ++ intros [_ [H _]]. injection H as <-. reflexivity.
    + split; [discriminate | intros [_ [H _]]; discriminate].
Qed.





(** The [/premium] branch never raises and leaves [_user_cache] alone. *)
Lemma premium_command_run gw now cid uid st :
  fst (premium_command gw now cid uid st) = Ok tt
  /\ user_cache (snd (premium_command gw now cid uid st)) = user_cache st.
Proof.
  cbv beta iota delta [premium_command try_except bind post emit ret raise
    response_json py_get send_message_async].
  destruct (gw _) as [j | |]; [| split; reflexivity | split; reflexivity].
  destruct j as [| | | | | fields]; try (split; reflexivity).
  destruct (obj_get fields "ok") as [v |]; [destruct (truthy v) |]; split; reflexivity.
Qed.

(** A message with readable chat and sender ids returns normally. *)
Lemma handle_message_run gw now m c cid u uid st
  (Hc : obj_get m "chat" = Some (JObj c)) (Hcid : obj_get c "id" = Some cid)
  (Hu : obj_get m "from" = Some (JObj u)) (Huid : obj_get u "id" = Some uid)
  (Hh : hashable uid = true) :
  fst (handle_message gw now (JObj m) st) = Ok tt.
Proof.
  rewrite (handle_message_prefix gw now m c cid u uid st Hc Hcid Hu Huid Hh).
  destruct (text_is _ "/start"); [reflexivity |].
  destruct (text_is _ "/help"); [reflexivity |].
  destruct (text_is _ "/premium"); [apply premium_command_run |].
  destruct (text_is _ "/paysupport"); reflexivity.
Qed.

(** [webhook] on an object envelope without a pre-checkout query and with
    an object [message]: the message branch, then the payment branch when
    the message has [successful_payment] and the message branch did not
    raise; the answer is [200 {"ok": true}] in every case. *)
Lemma webhook_message_run gw now f mf st
  (Hq : obj_get f "pre_checkout_query" = None)
  (Hm : obj_get f "message" = Some (JObj mf)) :
  webhook gw now (BJson (JObj f)) st
  = (Ok ok_response,
     match handle_message gw now (JObj mf) st with
     | (Ok _, st1) => match obj_get mf "successful_payment" with
                      | Some _ => snd (handle_payment (JObj f) st1)
                      | None => st1
                      end
     | (Exc _, st1) => st1
     end).
Proof.
  unfold webhook.
  cbv beta iota delta [try_except bind get_json py_in getitem ret raise].
  rewrite Hq, Hm.
  destruct (handle_message gw now (JObj mf) st) as [[[] | e] st1]; [| reflexivity].
  destruct (obj_get mf "successful_payment"); [| reflexivity].
  destruct (handle_payment (JObj f) st1) as [[[] | e] st2]; reflexivity.
Qed.

(** X7: an envelope whose message has no [chat], no [from], or a sender id
    that cannot be a dict key (a list or an object) is dropped by [webhook]
    before any effect: no call, no notification, no cache update (not even
    a payment confirmation when the message carries [successful_payment]),
    and the answer is still [200 {"ok": true}]. *)
Theorem webhook_malformed_message_dropped gw now f mf st
  (Hq : obj_get f "pre_checkout_query" = None)
  (Hm : obj_get f "message" = Some (JObj mf))
  (Hbad : obj_get mf "chat" = None \/ obj_get mf "from" = None
          \/ exists u uid, obj_get mf "from" = Some (JObj u)
                           /\ obj_get u "id" = Some uid /\ hashable uid = false) :
  webhook gw now (BJson (JObj f)) st = (Ok ok_response, st).
Proof.
  rewrite (webhook_message_run gw now f mf st Hq Hm).
  unfold handle_message. cbv beta iota delta [bind getitem py_get ret raise].
  destruct Hbad as [H | [H | [u [uid [H [Hid Hh]]]]]].
  - rewrite H. reflexivity.
  - destruct (obj_get mf "chat") as [[| | | | | c] |]; try reflexivity.
    destruct (obj_get c "id"); [| reflexivity].
    destruct (obj_get mf "text"); rewrite H; reflexivity.
  - destruct (obj_get mf "chat") as [[| | | | | c] |]; try reflexivity.
    destruct (obj_get c "id"); [| reflexivity].
    destruct (obj_get mf "text"); rewrite H, Hid;
      destruct (obj_get u "first_name"); unfold cache_user; rewrite Hh; reflexivity.
Qed.

(** A payment message whose sender id is a list. *)
Definition list_sender_update : json :=
  JObj [("message", JObj [("chat", JObj [("id", JNum 5)]);
                          ("from", JObj [("id", JArr [JNum 7])]);
                          ("successful_payment",
                            JObj [("total_amount", JNum 99); ("currency", JStr "XTR");
                                  ("telegram_payment_charge_id", JStr "ch")])])].

Lemma webhook_malformed_message_dropped_witness :
  webhook gw_accept 1700000000000 (BJson list_sender_update) st0 = (Ok ok_response, st0).
Proof.
  apply (webhook_malformed_message_dropped gw_accept 1700000000000
           [("message", JObj [("chat", JObj [("id", JNum 5)]);
                              ("from", JObj [("id", JArr [JNum 7])]);
                              ("successful_payment",
                                JObj [("total_amount", JNum 99); ("currency", JStr "XTR");
                                      ("telegram_payment_charge_id", JStr "ch")])])]
           [("chat", JObj [("id", JNum 5)]);
            ("from", JObj [("id", JArr [JNum 7])]);
            ("successful_payment",
              JObj [("total_amount", JNum 99); ("currency", JStr "XTR");
                    ("telegram_payment_charge_id", JStr "ch")])]
           st0 eq_refl eq_refl).
  right. right. exists [("id", JArr [JNum 7])], (JArr [JNum 7]). auto.
Defined.

(** The three fields of [successful_payment] read by the log lines
    344-345. *)
Definition payment_fields : list string :=
  ["total_amount"; "currency"; "telegram_payment_charge_id"].

(** X8: an envelope (no pre-checkout query) whose message has readable chat
    and sender ids and a [successful_payment] object with the three logged
    fields first gets the whole message branch (the command the message
    carries is answered as usual), then exactly one more effect: the HTML
    payment confirmation to the message's chat on a background thread.
    The answer is [200 {"ok": true}]. *)
Theorem webhook_payment_confirmed gw now f mf c cid u uid pay st
  (Hq : obj_get f "pre_checkout_query" = None)
  (Hm : obj_get f "message" = Some (JObj mf))
  (Hc : obj_get mf "chat" = Some (JObj c)) (Hcid : obj_get c "id" = Some cid)
  (Hu : obj_get mf "from" = Some (JObj u)) (Huid : obj_get u "id" = Some uid)
  (Hh : hashable uid = true)
  (Hp : obj_get mf "successful_payment" = Some (JObj pay))
  (Hfields : forall k, In k payment_fields -> exists v, obj_get pay k = Some v) :
  let st1 := snd (handle_message gw now (JObj mf) st) in
  webhook gw now (BJson (JObj f)) st
  = (Ok ok_response,
     mk_state (trace st1 ++ [Async (SendMessage cid payment_success_text "HTML")])
              (user_cache st1)).
Proof.
  intros st1.
  rewrite (webhook_message_run gw now f mf st Hq Hm).
  pose proof (handle_message_run gw now mf c cid u uid st Hc Hcid Hu Huid Hh) as Hok.
  subst st1. destruct (handle_message gw now (JObj mf) st) as [r st1]. cbn [fst snd] in *.
  subst r. rewrite Hp.
  destruct (Hfields "total_amount") as [a Ha]; [simpl; auto |].
  destruct (Hfields "currency") as [cur Hcur]; [simpl; auto |].
  destruct (Hfields "telegram_payment_charge_id") as [ch Hch]; [simpl; auto |].
  unfold handle_payment.
  cbv beta iota delta [bind getitem ret raise send_message_async emit].
  rewrite Hm, Hc, Hcid, Hu, Huid, Hp, Ha, Hcur, Hch. reflexivity.
Qed.

(** A [/help] message carrying a complete payment record. *)
Definition paid_help_update : json :=
  JObj [("message", JObj [("chat", JObj [("id", JNum 5)]);
                          ("from", JObj [("id", JNum 7)]);
                          ("text", JStr "/help");
                          ("successful_payment",
                            JObj [("total_amount", JNum 99); ("currency", JStr "XTR");
                                  ("telegram_payment_charge_id", JStr "ch")])])].

Lemma webhook_payment_confirmed_witness :
  webhook gw_accept 1700000000000 (BJson paid_help_update) st0
  = (Ok ok_response,
     mk_state [Async (SendMessage (JNum 5) help_text "HTML");
               Async (SendMessage (JNum 5) payment_success_text "HTML")]
              [(JNum 7, mk_entry (JStr "User") 1700000000000)]).
Proof.
  refine (webhook_payment_confirmed gw_accept 1700000000000
           [("message", JObj [("chat", JObj [("id", JNum 5)]);
                              ("from", JObj [("id", JNum 7)]);
                              ("text", JStr "/help");
                              ("successful_payment",
                                JObj [("total_amount", JNum 99); ("currency", JStr "XTR");
                                      ("telegram_payment_charge_id", JStr "ch")])])]
           [("chat", JObj [("id", JNum 5)]);
            ("from", JObj [("id", JNum 7)]);
            ("text", JStr "/help");
            ("successful_payment",
              JObj [("total_amount", JNum 99); ("currency", JStr "XTR");
                    ("telegram_payment_charge_id", JStr "ch")])]
           [("id", JNum 5)] (JNum 5) [("id", JNum 7)] (JNum 7)
           [("total_amount", JNum 99); ("currency", JStr "XTR");
            ("telegram_payment_charge_id", JStr "ch")]
           st0 eq_refl eq_refl eq_refl eq_refl eq_refl eq_refl eq_refl eq_refl _).
  intros k Hk. simpl in Hk.
  destruct Hk as [<- | [<- | [<- | []]]]; eexists; reflexivity.
Defined.

(** X9: when the [successful_payment] of the message is not an object, or
    lacks one of the three logged fields, the logging line raises and no
    confirmation is sent: [webhook] has exactly the effects of the message
    branch and still answers [200 {"ok": true}]. *)
Theorem webhook_payment_incomplete gw now f mf p st
  (Hq : obj_get f "pre_checkout_query" = None)
  (Hm : obj_get f "message" = Some (JObj mf))
  (Hp : obj_get mf "successful_payment" = Some p)
  (Hinc : (forall pay, p <> JObj pay)
          \/ exists pay k, p = JObj pay /\ In k payment_fields /\ obj_get pay k = None) :
  webhook gw now (BJson (JObj f)) st
  = (Ok ok_response, snd (handle_message gw now (JObj mf) st)).
Proof.
  rewrite (webhook_message_run gw now f mf st Hq Hm).
  destruct (handle_message gw now (JObj mf) st) as [[[] | e] st1]; [| reflexivity].
  rewrite Hp. f_equal. cbn [snd].
  unfold handle_payment.
  cbv beta iota delta [bind getitem ret raise send_message_async emit].
  rewrite Hm.
  destruct (obj_get mf "chat") as [[| | | | | cf] |]; try reflexivity.
  destruct (obj_get cf "id"); [| reflexivity].
  destruct (obj_get mf "from") as [[| | | | | uf] |]; try reflexivity.
  destruct (obj_get uf "id"); [| reflexivity].
  rewrite Hp.
  destruct Hinc as [Hnot | [pay [k [-> [Hk Hnone]]]]].
  - destruct p; try reflexivity. exfalso. eapply Hnot. reflexivity.
  - simpl in Hk. destruct Hk as [<- | [<- | [<- | []]]]; rewrite Hnone; try reflexivity.
    + destruct (obj_get pay "total_amount"); reflexivity.
    + destruct (obj_get pay "total_amount"); [| reflexivity].
      destruct (obj_get pay "currency"); reflexivity.
Qed.

(** A [/help] message whose payment record has no charge id. *)
Definition partial_payment_update : json :=
  JObj [("message", JObj [("chat", JObj [("id", JNum 5)]);
                          ("from", JObj [("id", JNum 7)]);
                          ("text", JStr "/help");
                          ("successful_payment",
                            JObj [("total_amount", JNum 99); ("currency", JStr "XTR")])])].

Lemma webhook_payment_incomplete_witness :
  webhook gw_accept 1700000000000 (BJson partial_payment_update) st0
  = (Ok ok_response,
     snd (handle_message gw_accept 1700000000000
            (JObj [("chat", JObj [("id", JNum 5)]);
                   ("from", JObj [("id", JNum 7)]);
                   ("text", JStr "/help");
                   ("successful_payment",
                     JObj [("total_amount", JNum 99); ("currency", JStr "XTR")])]) st0)).
Proof.
  apply (webhook_payment_incomplete gw_accept 1700000000000
           [("message", JObj [("chat", JObj [("id", JNum 5)]);
                              ("from", JObj [("id", JNum 7)]);
                              ("text", JStr "/help");
                              ("successful_payment",
                                JObj [("total_amount", JNum 99); ("currency", JStr "XTR")])])]
           [("chat", JObj [("id", JNum 5)]);
            ("from", JObj [("id", JNum 7)]);
            ("text", JStr "/help");
            ("successful_payment",
              JObj [("total_amount", JNum 99); ("currency", JStr "XTR")])]
           (JObj [("total_amount", JNum 99); ("currency", JStr "XTR")])
           st0 eq_refl eq_refl eq_refl).
  right. exists [("total_amount", JNum 99); ("currency", JStr "XTR")],
    "telegram_payment_charge_id".
  split; [reflexivity | split; [simpl; auto | reflexivity]].
Defined.

(** [try/except] whose handler always returns a value satisfying [P] around
    a body whose values satisfy [P] returns such a value. *)
Lemma try_except_total {A} (P : A -> Prop) (m : M A) (h : exn -> M A) st :
  returns P m -> (forall e st', exists a, fst (h e st') = Ok a /\ P a) ->
  exists a, fst (try_except m h st) = Ok a /\ P a.
Proof.
  intros Hm Hh. specialize (Hm st). unfold try_except.
  destruct (m st) as [[a | e] st']; simpl in *; eauto.
Qed.

(** X10: [get_invoice] never lets an exception escape: whatever the body
    and the platform's reply, it answers with status 200, 400 or 500. *)
Theorem get_invoice_status json_loads unquote str_title str_json gw now b st :
  exists r, fst (get_invoice json_loads unquote str_title str_json gw now b st) = Ok r
            /\ (fst r = 200 \/ fst r = 400 \/ fst r = 500).
Proof.
  apply try_except_total.
  - repeat match goal with
           | |- returns _ (bind _ _) => apply returns_bind; intros ?
           | |- returns _ (if _ then _ else _) => apply returns_if
           | |- returns _ (ret _) => apply returns_ret; cbn [fst error_response]; auto
           end.
  - intros e st'. eexists. split; [reflexivity | cbn; auto].
Qed.

(** The answer of [get_invoice] to a reply of [createInvoiceLink] (lines
    181-191, with the [except] of lines 193-195). *)
Definition invoice_response (r : reply) : response :=
  match r with
  | RJson (JObj f) =>
      if match obj_get f "ok" with Some v => truthy v | None => false end
      then (200, JObj [("invoice_url", match obj_get f "result" with
                                       | Some u => u
                                       | None => JNull
                                       end)])
      else error_response 400 (match obj_get f "description" with
                               | Some d => d
                               | None => JStr "Unknown error"
                               end)
  | _ => error_response 500 (JStr "Server error")
  end.

(** X11: once the [createInvoiceLink] request is made (non-blank str
    [initData], str or absent [product]), the answer of [get_invoice]
    depends on the platform's reply alone: 200 with its ["result"] as
    [invoice_url] when its ["ok"] is truthy, otherwise 400 with its
    ["description"] (or "Unknown error"), and 500 when the reply cannot be
    read as a JSON object or [requests] raised. *)
Theorem get_invoice_reply json_loads unquote str_title str_json gw now f s p st
  (Hinit : obj_get f "initData" = Some (JStr s))
  (Hs : strip s <> "")
  (Hp : obj_get f "product" = Some (JStr p)
        \/ (obj_get f "product" = None /\ p = "premium_weekly")) :
  let amount := match obj_get f "amount" with Some a => a | None => JNum 99 end in
  exists uid,
    get_invoice json_loads unquote str_title str_json gw now (BJson (JObj f)) st
    = (Ok (invoice_response (gw (CreateInvoiceLink (link_invoice str_title str_json now p uid amount)))),
       mk_state (trace st ++ [Sync (CreateInvoiceLink (link_invoice str_title str_json now p uid amount))])
                (user_cache st)).
Proof.
  intros amount.
  destruct (extract_user_id_run json_loads unquote (strip s) st) as [uid Huid].
  exists uid.
  unfold get_invoice.
  cbv beta iota delta [try_except bind get_json ret raise py_get py_strip as_str
    post emit response_json error_response invoice_response].
  rewrite (truthy_nonempty_obj f "initData" (JStr s) Hinit), Hinit.
  cbn [negb].
  destruct (String.eqb (strip s) "") eqn:Es.
  { apply String.eqb_eq in Es. contradiction. }
  destruct Hp as [Hp | [Hp ->]]; rewrite Hp; subst amount;
    destruct (obj_get f "amount"); rewrite Huid;
    (destruct (gw _) as [body | |]; cbn [fst snd]; [| reflexivity | reflexivity]);
    destruct body as [| | | | | fields]; try reflexivity;
    destruct (obj_get fields "ok") as [v |]; try (destruct (truthy v));
    try destruct (obj_get fields "result"); try destruct (obj_get fields "description");
    reflexivity.
Qed.

Lemma get_invoice_reply_witness :
  exists uid,
    get_invoice json_loads_impl unquote_impl title py_str gw_accept 1700000000000
      (BJson init_data_only_body) st0
    = (Ok (invoice_response (gw_accept (CreateInvoiceLink
             (link_invoice title py_str 1700000000000 "premium_weekly" uid (JNum 99))))),
       mk_state (trace st0 ++ [Sync (CreateInvoiceLink
                    (link_invoice title py_str 1700000000000 "premium_weekly" uid (JNum 99)))])
                (user_cache st0)).
Proof.
  exact (get_invoice_reply json_loads_impl unquote_impl title py_str gw_accept 1700000000000
           [("initData", JStr "query_id=AAH&user=%7B%22id%22%3A12345%7D")]
           "query_id=AAH&user=%7B%22id%22%3A12345%7D" "premium_weekly" st0
           eq_refl ltac:(discriminate) (or_intror (conj eq_refl eq_refl))).
Defined.

(** X12: [get_invoice] answers 500 "Server error" without any call and
    without touching the state when the body is not JSON (the
    [BadRequest] of [request.get_json()] is caught by the broad [except]),
    when it is a truthy JSON value other than an object, when its
    [initData] is not a str, or when a usable [initData] comes with a
    [product] that is not a str. *)
Theorem get_invoice_server_error json_loads unquote str_title str_json gw now b st
  (Hb : b = BMalformed
        \/ (exists j, b = BJson j /\ truthy j = true /\ forall f, j <> JObj f)
        \/ (exists f v, b = BJson (JObj f) /\ obj_get f "initData" = Some v
                        /\ forall s, v <> JStr s)
        \/ (exists f s v, b = BJson (JObj f) /\ obj_get f "initData" = Some (JStr s)
                          /\ strip s <> "" /\ obj_get f "product" = Some v
                          /\ forall p, v <> JStr p)) :
  get_invoice json_loads unquote str_title str_json gw now b st
  = (Ok (error_response 500 (JStr "Server error")), st).
Proof.
  destruct Hb as [-> | [[j [-> [Ht Hnot]]] | [[f [v [-> [Hi Hnot]]]] |
                  [f [s [v [-> [Hi [Hs [Hp Hnot]]]]]]]]]].
  - reflexivity.
  - unfold get_invoice.
    cbv beta iota delta [try_except bind get_json ret raise].
    rewrite Ht. cbn [negb].
    destruct j; try reflexivity. exfalso. eapply Hnot. reflexivity.
  - unfold get_invoice.
    cbv beta iota delta [try_except bind get_json ret raise py_get].
    rewrite (truthy_nonempty_obj f "initData" v Hi), Hi. cbn [negb].
    destruct v; try reflexivity. exfalso. eapply Hnot. reflexivity.
  - destruct (extract_user_id_run json_loads unquote (strip s) st) as [uid Huid].
    unfold get_invoice.
    cbv beta iota delta [try_except bind get_json ret raise py_get py_strip].
    rewrite (truthy_nonempty_obj f "initData" (JStr s) Hi), Hi. cbn [negb].
    destruct (String.eqb (strip s) "") eqn:Es.
    { apply String.eqb_eq in Es. contradiction. }
    rewrite Hp. destruct (obj_get f "amount"); rewrite Huid;
      (destruct v; try reflexivity; exfalso; eapply Hnot; reflexivity).
Qed.

(** A body whose [product] is a number. *)
Definition numeric_product_body : json :=
  JObj [("initData", JStr "user=%7B%22id%22%3A12345%7D"); ("product", JNum 3)].

Lemma get_invoice_server_error_witness :
  get_invoice json_loads_impl unquote_impl title py_str gw_accept 1700000000000
    (BJson numeric_product_body) st0
  = (Ok (error_response 500 (JStr "Server error")), st0).
Proof.
  apply get_invoice_server_error.
  right. right. right.
  exists [("initData", JStr "user=%7B%22id%22%3A12345%7D"); ("product", JNum 3)],
    "user=%7B%22id%22%3A12345%7D", (JNum 3).
  split; [reflexivity |]. split; [reflexivity |]. split; [discriminate |].
  split; [reflexivity |]. intros p H. discriminate H.
Defined.

(** The user id is read from a [user] field that decodes to an object with
    an [id]. *)
Lemma extract_user_id_readable json_loads unquote s u uf v st :
  first_value unquote "user" s = Some u -> u <> "" ->
  json_loads (unquote u) = Some (JObj uf) -> obj_get uf "id" = Some v ->
  extract_user_id json_loads unquote s st = (Ok v, st).
Proof.
  intros Hu Hne Hj Hid.
  unfold extract_user_id, try_except, bind, lift_res, py_get, ret.
  rewrite Hu.
  destruct (String.eqb u "") eqn:E; [apply String.eqb_eq in E; contradiction |].
  cbn [negb]. rewrite Hj, Hid. reflexivity.
Qed.

(** X13: when the [user] field of a non-blank [initData] decodes to an
    object with an [id], that id (whatever its JSON type) is the user id of
    the [createInvoiceLink] request: the payload is the product, the id as
    [str()] shows it and the second, joined by underscores. *)
Theorem get_invoice_user_id json_loads unquote str_title str_json gw now f s p u uf v st
  (Hinit : obj_get f "initData" = Some (JStr s))
  (Hs : strip s <> "")
  (Hp : obj_get f "product" = Some (JStr p)
        \/ (obj_get f "product" = None /\ p = "premium_weekly"))
  (Hu : first_value unquote "user" (strip s) = Some u) (Hne : u <> "")
  (Hj : json_loads (unquote u) = Some (JObj uf)) (Hid : obj_get uf "id" = Some v) :
  let amount := match obj_get f "amount" with Some a => a | None => JNum 99 end in
  snd (get_invoice json_loads unquote str_title str_json gw now (BJson (JObj f)) st)
  = mk_state (trace st ++ [Sync (CreateInvoiceLink (link_invoice str_title str_json now p v amount))])
             (user_cache st)
  /\ inv_payload (link_invoice str_title str_json now p v amount)
     = (p ++ "_" ++ str_json v ++ "_" ++ str_of_Z (now / 1000))%string.
Proof.
  intros amount. split; [| reflexivity].
  exact (get_invoice_link_run json_loads unquote str_title str_json gw now f s p v st Hinit Hs Hp
           (extract_user_id_readable json_loads unquote (strip s) u uf v st Hu Hne Hj Hid)).
Qed.

Lemma get_invoice_user_id_witness :
  snd (get_invoice json_loads_impl unquote_impl title py_str gw_accept 1700000000000
         (BJson init_data_only_body) st0)
  = mk_state [Sync (CreateInvoiceLink
                (link_invoice title py_str 1700000000000 "premium_weekly" (JNum 12345) (JNum 99)))] []
  /\ inv_payload (link_invoice title py_str 1700000000000 "premium_weekly" (JNum 12345) (JNum 99))
     = ("premium_weekly" ++ "_" ++ py_str (JNum 12345) ++ "_"
        ++ str_of_Z (1700000000000 / 1000))%string.
Proof.
  refine (get_invoice_user_id json_loads_impl unquote_impl title py_str gw_accept 1700000000000
            [("initData", JStr "query_id=AAH&user=%7B%22id%22%3A12345%7D")]
            "query_id=AAH&user=%7B%22id%22%3A12345%7D" "premium_weekly"
            ("{" ++ String dq "id" ++ String dq ":12345}") [("id", JNum 12345)]
            (JNum 12345) st0 eq_refl _ _ _ _ _ eq_refl).
  - discriminate.
  - right. split; reflexivity.
  - vm_compute. reflexivity.
  - discriminate.
  - vm_compute. reflexivity.
Defined.

(** X14: an envelope whose [pre_checkout_query] is not an object, or has
    no [id], gets no call at all (the query is not answered, and nothing
    else of the envelope is handled) and is acknowledged with
    [200 {"ok": true}]. *)
Theorem webhook_pre_checkout_without_id gw now f q st
  (Hq : obj_get f "pre_checkout_query" = Some q)
  (Hno : (forall g, q <> JObj g) \/ exists g, q = JObj g /\ obj_get g "id" = None) :
  webhook gw now (BJson (JObj f)) st = (Ok ok_response, st).
Proof.
  unfold webhook.
  cbv beta iota delta [try_except bind get_json py_in getitem ret raise].
  rewrite Hq.
  destruct Hno as [Hnot | [g [-> Hid]]].
  - destruct q; try reflexivity. exfalso. eapply Hnot. reflexivity.
  - rewrite Hid. reflexivity.
Qed.

(** An id-less pre-checkout query sent together with a message. *)
Definition idless_pcq_update : json :=
  JObj [("pre_checkout_query", JObj [("from", JObj [("id", JNum 7)])]);
        ("message", JObj [("chat", JObj [("id", JNum 5)]); ("from", JObj [("id", JNum 7)]);
                          ("text", JStr "/start")])].

Lemma webhook_pre_checkout_without_id_witness :
  webhook gw_accept 1700000000000 (BJson idless_pcq_update) st0 = (Ok ok_response, st0).
Proof.
  apply (webhook_pre_checkout_without_id gw_accept 1700000000000
           [("pre_checkout_query", JObj [("from", JObj [("id", JNum 7)])]);
            ("message", JObj [("chat", JObj [("id", JNum 5)]); ("from", JObj [("id", JNum 7)]);
                              ("text", JStr "/start")])]
           (JObj [("from", JObj [("id", JNum 7)])]) st0 eq_refl).
  right. exists [("from", JObj [("id", JNum 7)])]. split; reflexivity.
Defined.

(** X15: a body that is not a JSON object (not JSON at all, [null], a
    number, a bool, a string or a list, even one that mentions "message" or
    "pre_checkout_query") has no effect: [webhook] makes no call, changes
    no cache entry and answers [200 {"ok": true}]. *)
Theorem webhook_non_object_body gw now b st
  (Hb : forall f, b <> BJson (JObj f)) :
  webhook gw now b st = (Ok ok_response, st).
Proof.
  destruct b as [j |]; [| reflexivity].
  unfold webhook.
  cbv beta iota delta [try_except bind get_json py_in getitem ret raise].
  destruct j as [| | | s | l | f].
  - reflexivity.
  - reflexivity.
  - reflexivity.
  - destruct (is_substring "pre_checkout_query" s); [reflexivity |].
    destruct (is_substring "message" s); reflexivity.
  - destruct (existsb _ l); [reflexivity |].
    destruct (existsb _ l); reflexivity.
  - exfalso. eapply Hb. reflexivity.
Qed.

Lemma webhook_non_object_body_witness :
  webhook gw_accept 1700000000000 (BJson (JArr [JStr "message"])) st0 = (Ok ok_response, st0).
Proof.
  apply webhook_non_object_body. intros f H. discriminate H.
Defined.

(** The payment branch never touches [_user_cache]. *)
Lemma handle_payment_cache upd st :
  user_cache (snd (handle_payment upd st)) = user_cache st.
Proof.
  assert (H : frame (fun c => c = user_cache st) (fun _ => True) (handle_payment upd)).
  { unfold handle_payment, send_message_async. frame_full. }
  exact (proj1 (H st eq_refl)).
Qed.

(** X16: for an envelope (no pre-checkout query) whose message has readable
    chat and sender ids, the sender id a possible dict key, the only change
    [webhook] makes to [_user_cache] is recording the sender with its
    [first_name] (or "User") and the current time, whatever the command,
    the payment record and the platform's replies. *)
Theorem webhook_records_sender gw now f mf c cid u uid st
  (Hq : obj_get f "pre_checkout_query" = None)
  (Hm : obj_get f "message" = Some (JObj mf))
  (Hc : obj_get mf "chat" = Some (JObj c)) (Hcid : obj_get c "id" = Some cid)
  (Hu : obj_get mf "from" = Some (JObj u)) (Huid : obj_get u "id" = Some uid)
  (Hh : hashable uid = true) :
  let name := match obj_get u "first_name" with Some n => n | None => JStr "User" end in
  user_cache (snd (webhook gw now (BJson (JObj f)) st))
  = cache_put uid (mk_entry name now) (user_cache st).
Proof.
  intros name.
  assert (H1 : user_cache (snd (handle_message gw now (JObj mf) st))
               = cache_put uid (mk_entry name now) (user_cache st)).
  { rewrite (handle_message_prefix gw now mf c cid u uid st Hc Hcid Hu Huid Hh).
    fold name.
    destruct (text_is _ "/start"); [reflexivity |].
    destruct (text_is _ "/help"); [reflexivity |].
    destruct (text_is _ "/premium"); [apply premium_command_run |].
    destruct (text_is _ "/paysupport"); reflexivity. }
  rewrite (webhook_message_run gw now f mf st Hq Hm).
  destruct (handle_message gw now (JObj mf) st) as [[[] | e] st1]; cbn [snd] in *;
    [| exact H1].
  destruct (obj_get mf "successful_payment"); [| exact H1].
  rewrite handle_payment_cache. exact H1.
Qed.

Lemma webhook_records_sender_witness :
  user_cache (snd (webhook (fun _ => RRaise) 1700000000000
                     (BJson (JObj [("message", premium_message)])) st0))
  = cache_put (JNum 7) (mk_entry (JStr "User") 1700000000000) (user_cache st0).
Proof.
  exact (webhook_records_sender (fun _ => RRaise) 1700000000000
           [("message", premium_message)]
           [("chat", JObj [("id", JNum 5)]); ("from", JObj [("id", JNum 7)]);
            ("text", JStr "/premium")]
           [("id", JNum 5)] (JNum 5) [("id", JNum 7)] (JNum 7) st0
           eq_refl eq_refl eq_refl eq_refl eq_refl eq_refl eq_refl).
Defined.
